(** * Row filter, filename sanitisation and pagination of the portal scraper

    A shallow embedding of [images.py] (the [RescuePortal] class) and of
    [bin/images.py] (the earlier free-function script), together with the
    parts of Python's [str], [int], [re] and of BeautifulSoup's [Tag] that
    those two scripts call, and with the dictionaries that they are
    started with. *)

From Stdlib Require Import String Ascii ZArith List Lia Bool Sorted.
From Stdlib.Strings Require Import Byte.
From stdpp Require Import base gmap strings list pretty.

(* stdpp freezes [String.append] under [simpl]; the proofs below compute
   with string literals, so it is unfrozen again for this file. *)
#[local] Arguments String.append !s1 s2 : simpl nomatch.

(** * The embedding *)

(** ** Python strings

    A string is the sequence of its code points, one [ascii] each: the
    texts that can be written are those whose code points are below
    256. *)

Module PyStr.

Definition newline : ascii := Ascii.ascii_of_nat 10.
Definition nl : string := String newline "".

(** [old in s[0:]], i.e. [s.startswith(old)]. *)
Fixpoint startswith (old s : string) : bool :=
  match old, s with
  | "", _ => true
  | String _ _, "" => false
  | String a old', String b s' => Ascii.eqb a b && startswith old' s'
  end.

(** [sub in s]. *)
Fixpoint contains (sub s : string) : bool :=
  startswith sub s ||
  match s with
  | "" => false
  | String _ s' => contains sub s'
  end.

(** [s.replace(old, new)]: the occurrences of [old] are found from left to
    right and do not overlap; [skip] counts the characters of the
    occurrence just replaced that are still to be passed over.  For an
    empty [old] Python puts [new] before every character and at the end. *)
Fixpoint replace_from (old new : string) (skip : nat) (s : string) : string :=
  match s with
  | "" => ""
  | String c s' =>
      match skip with
      | S k => replace_from old new k s'
      | O =>
          if startswith old s
          then new +:+ replace_from old new (String.length old - 1) s'
          else String c (replace_from old new 0 s')
      end
  end.

Fixpoint intersperse_before (new s : string) : string :=
  match s with
  | "" => new
  | String c s' => new +:+ String c (intersperse_before new s')
  end.

Definition replace (old new s : string) : string :=
  match old with
  | "" => intersperse_before new s
  | String _ _ => replace_from old new 0 s
  end.

(** Keeping the characters that satisfy [keep]. *)
Fixpoint filter (keep : ascii -> bool) (s : string) : string :=
  match s with
  | "" => ""
  | String c s' => if keep c then String c (filter keep s') else filter keep s'
  end.

Fixpoint forallb (p : ascii -> bool) (s : string) : bool :=
  match s with
  | "" => true
  | String c s' => p c && forallb p s'
  end.

(** [s.isascii()]: every code point is below 128. *)
Definition isascii (s : string) : bool :=
  forallb (fun c => (nat_of_ascii c <? 128)%nat) s.

(** The number of bytes of [s] in UTF-8, the encoding of file names: one
    for a code point below 128, two for the others below 256. *)
Fixpoint utf8_length (s : string) : nat :=
  match s with
  | "" => 0
  | String c s' => (if (nat_of_ascii c <? 128)%nat then 1 else 2) + utf8_length s'
  end.

End PyStr.

(** ** Python's [re]: the matcher

    [re.match(pattern, text, flags)] returns a match object, which is
    truthy, when some prefix of [text] belongs to the language of
    [pattern], and [None] otherwise.  Both scripts only test the
    result for truth, so the embedding keeps the language and drops the
    groups.  The only flag ever passed is [re.DOTALL]. *)

Module Re.

Inductive regex : Type :=
| RVoid                          (* matches nothing; only arises in derivatives *)
| REps                           (* the empty pattern *)
| RChr (c : ascii)               (* a literal character *)
| RAny                           (* [.] *)
| RCat (r1 r2 : regex)
| RAlt (r1 r2 : regex)           (* [r1|r2] *)
| RStar (r : regex).             (* [r*] *)

Definition RPlus (r : regex) : regex := RCat r (RStar r).
Definition ROpt (r : regex) : regex := RAlt r REps.

(** [.] matches every character except a newline, and every character
    under [re.DOTALL]. *)
Definition dot_accepts (dotall : bool) (c : ascii) : bool :=
  dotall || negb (Ascii.eqb c PyStr.newline).

Section Language.
Variable dotall : bool.

Inductive lang : regex -> string -> Prop :=
| lang_eps : lang REps ""
| lang_chr c : lang (RChr c) (String c "")
| lang_any c : dot_accepts dotall c = true -> lang RAny (String c "")
| lang_cat r1 r2 s1 s2 :
    lang r1 s1 -> lang r2 s2 -> lang (RCat r1 r2) (s1 +:+ s2)
| lang_alt_l r1 r2 s : lang r1 s -> lang (RAlt r1 r2) s
| lang_alt_r r1 r2 s : lang r2 s -> lang (RAlt r1 r2) s
| lang_star_nil r : lang (RStar r) ""
| lang_star_cons r s1 s2 :
    lang r s1 -> lang (RStar r) s2 -> lang (RStar r) (s1 +:+ s2).

Fixpoint nullable (r : regex) : bool :=
  match r with
  | RVoid | RChr _ | RAny => false
  | REps | RStar _ => true
  | RCat r1 r2 => nullable r1 && nullable r2
  | RAlt r1 r2 => nullable r1 || nullable r2
  end.

Fixpoint deriv (c : ascii) (r : regex) : regex :=
  match r with
  | RVoid | REps => RVoid
  | RChr a => if Ascii.eqb a c then REps else RVoid
  | RAny => if dot_accepts dotall c then REps else RVoid
  | RCat r1 r2 =>
      if nullable r1
      then RAlt (RCat (deriv c r1) r2) (deriv c r2)
      else RCat (deriv c r1) r2
  | RAlt r1 r2 => RAlt (deriv c r1) (deriv c r2)
  | RStar r1 => RCat (deriv c r1) (RStar r1)
  end.

(** The whole of [s] is in the language ([re.fullmatch]). *)
Fixpoint fullmatch (r : regex) (s : string) : bool :=
  match s with
  | "" => nullable r
  | String c s' => fullmatch (deriv c r) s'
  end.

(** Some prefix of [s] is in the language ([re.match]). *)
Fixpoint match_ (r : regex) (s : string) : bool :=
  nullable r ||
  match s with
  | "" => false
  | String c s' => match_ (deriv c r) s'
  end.

End Language.

End Re.

(** ** Python's [re]: the pattern syntax

    The fragment of the pattern syntax that is modelled: literal
    characters, [.], the postfix operators [*], [+] and [?] (each may be
    made lazy by a following [?], which does not change whether a match
    exists), alternation [|], groups [( )] and a backslash before a
    character that is neither a letter nor a digit.  [compile] returns
    [None] for a pattern that [re] rejects ([re.error]) and for one that
    uses syntax outside this fragment (classes, anchors, counted
    repetition, [(?...)] extensions, possessive operators, letter and
    digit escapes). *)

Module RePattern.
Import Re.

(** What a postfix operator met now would apply to. *)
Inductive last_item : Type :=
| LNothing      (* start of the pattern, of a group or of a branch *)
| LAtom         (* an atom without operator *)
| LRepeated     (* an atom with one operator *)
| LLazy.        (* an atom with a lazy operator *)

(** One open group: the branches already closed by [|] and the atoms of
    the branch being read, both most recent first. *)
Record frame : Type := mkFrame { branches : list regex; atoms : list regex }.

Record pstate : Type := mkPState {
  outer : list frame;
  cur : frame;
  pending : last_item;
  escaped : bool
}.

Definition cat_list (l : list regex) : regex := fold_right RCat REps l.
Definition alt_list (l : list regex) : regex := fold_right RAlt RVoid l.

Definition close_branch (f : frame) : list regex :=
  cat_list (rev (atoms f)) :: branches f.
Definition close_frame (f : frame) : regex := alt_list (rev (close_branch f)).

Definition push_atom (r : regex) (st : pstate) : pstate :=
  mkPState (outer st)
           (mkFrame (branches (cur st)) (r :: atoms (cur st)))
           LAtom false.

Definition is_digit (c : ascii) : bool :=
  let n := nat_of_ascii c in (48 <=? n)%nat && (n <=? 57)%nat.
Definition is_upper (c : ascii) : bool :=
  let n := nat_of_ascii c in (65 <=? n)%nat && (n <=? 90)%nat.
Definition is_lower (c : ascii) : bool :=
  let n := nat_of_ascii c in (97 <=? n)%nat && (n <=? 122)%nat.
Definition is_alnum (c : ascii) : bool := is_digit c || is_upper c || is_lower c.

(** The characters with a meaning of their own in a pattern. *)
Definition is_meta (c : ascii) : bool :=
  match c with
  | "\" | "(" | ")" | "|" | "*" | "+" | "?" | "." | "[" | "{" | "}" | "^" | "$" => true
  | _ => false
  end%char.

Definition repeat_last (op : regex -> regex) (st : pstate) : option pstate :=
  match pending st, atoms (cur st) with
  | LAtom, r :: rs =>
      Some (mkPState (outer st) (mkFrame (branches (cur st)) (op r :: rs))
                     LRepeated false)
  | _, _ => None
  end.

Definition step (st : pstate) (c : ascii) : option pstate :=
  if escaped st then
    if is_alnum c then None else Some (push_atom (RChr c) st)
  else
    match c with
    | "\" => Some (mkPState (outer st) (cur st) (pending st) true)
    | "(" => Some (mkPState (cur st :: outer st) (mkFrame [] []) LNothing false)
    | ")" =>
        match outer st with
        | [] => None
        | f :: fs =>
            Some (mkPState fs (mkFrame (branches f) (close_frame (cur st) :: atoms f))
                           LAtom false)
        end
    | "|" => Some (mkPState (outer st) (mkFrame (close_branch (cur st)) [])
                            LNothing false)
    | "*" => repeat_last RStar st
    | "+" => repeat_last RPlus st
    | "?" =>
        match pending st with
        | LRepeated => Some (mkPState (outer st) (cur st) LLazy false)
        | _ => repeat_last ROpt st
        end
    | "." => Some (push_atom RAny st)
    | "[" | "{" | "}" | "^" | "$" => None
    | _ => Some (push_atom (RChr c) st)
    end%char.

Fixpoint parse (st : pstate) (p : string) : option regex :=
  match p with
  | "" =>
      match escaped st, outer st with
      | false, [] => Some (close_frame (cur st))
      | _, _ => None
      end
  | String c p' =>
      match step st c with
      | Some st' => parse st' p'
      | None => None
      end
  end.

Definition init : pstate := mkPState [] (mkFrame [] []) LNothing false.

Definition compile (p : string) : option regex := parse init p.

(** [re.match(pattern, text)], with [re.DOTALL] when [dotall].  For a
    pattern of the fragment [None] is the [re.error] raised while
    compiling it; a pattern outside the fragment gives [None] as well,
    and what [re] does with it is not modelled: the properties below that
    depend on a pattern assume that it compiles here. *)
Definition re_match (dotall : bool) (pattern text : string) : option bool :=
  match compile pattern with
  | Some r => Some (match_ dotall r text)
  | None => None
  end.

End RePattern.

(** [re.sub(pattern, repl, text)] for a [pattern] that is one character
    class: every character of the class is replaced by [repl]. *)
Fixpoint re_sub_class (in_class : ascii -> bool) (repl text : string) : string :=
  match text with
  | "" => ""
  | String c text' =>
      if in_class c
      then repl +:+ re_sub_class in_class repl text'
      else String c (re_sub_class in_class repl text')
  end.

(** ** BeautifulSoup elements *)

Module Bs4.

(** A [Tag] has a name, a dictionary of attributes and a list of children,
    each a string of the page or another tag. *)
Inductive Tag : Type :=
| mkTag (name : string) (attrs : gmap string string) (contents : list PageElement)
with PageElement : Type :=
| NavigableString (s : string)
| Element (t : Tag).

Definition name (t : Tag) : string := let 'mkTag n _ _ := t in n.
Definition attrs (t : Tag) : gmap string string := let 'mkTag _ a _ := t in a.
Definition contents (t : Tag) : list PageElement := let 'mkTag _ _ c := t in c.

(** [tag.get_text()]: the strings below the tag, in document order,
    joined without separator. *)
Fixpoint get_text (t : Tag) : string :=
  match t with
  | mkTag _ _ cs =>
      (fix go (l : list PageElement) : string :=
         match l with
         | [] => ""
         | NavigableString s :: l' => s +:+ go l'
         | Element t' :: l' => get_text t' +:+ go l'
         end) cs
  end.

(** [tag.descendants], restricted to tags: document order, the tag itself
    excluded. *)
Fixpoint descendants (t : Tag) : list Tag :=
  match t with
  | mkTag _ _ cs =>
      (fix go (l : list PageElement) : list Tag :=
         match l with
         | [] => []
         | NavigableString _ :: l' => go l'
         | Element t' :: l' => t' :: descendants t' ++ go l'
         end) cs
  end.

(** [tag.find_all(nm)] and [tag.find(nm)]: the descendants called [nm],
    and the first of them or [None]. *)
Definition find_all (nm : string) (t : Tag) : list Tag :=
  List.filter (fun d => String.eqb (name d) nm) (descendants t).

Definition find (nm : string) (t : Tag) : option Tag := head (find_all nm t).

End Bs4.

(** ** What both scripts share *)

(** A download task, the dictionary [{"href": ..., "filename": ...}]. *)
Record Link : Type := mkLink { href : string; filename : string }.

(** The class [[a-zA-Z0-9\-]] whose complement [sanitize] deletes. *)
Definition filename_char (c : ascii) : bool :=
  RePattern.is_lower c || RePattern.is_upper c || RePattern.is_digit c
  || Ascii.eqb c "-".

(** [sanitize(html, previous)], the same text in both scripts. *)
Definition sanitize (html : string) (previous : Bs4.Tag) : string :=
  let clean := PyStr.replace "Adopted" "" (PyStr.replace PyStr.nl "" html) in
  let clean := Bs4.get_text previous +:+ "-" +:+ clean in
  re_sub_class (fun c => negb (filename_char c)) "" clean.

(** The state of the loop of [process_table_data]. *)
Record loop_state : Type := mkLoop { previous : option Bs4.Tag; links : list Link }.

(** The test of one cell: [re.match(hold, html) and re.match(year, html,
    re.DOTALL)].  [and] does not evaluate its second operand when the first
    is [None]. *)
Definition cell_matches (hold_pattern year_pattern html : string) : option bool :=
  match RePattern.re_match false hold_pattern html with
  | None => None
  | Some false => Some false
  | Some true => RePattern.re_match true year_pattern html
  end.

(** The dictionary [info] built under [if previous:], when the tests on the
    way succeed.  A [Tag] is always truthy, so [if previous:] only excludes
    [None]; [find] gives a [Tag] or [None]. *)
Definition new_link (html : string) (previous : option Bs4.Tag) : option Link :=
  match previous with
  | None => None
  | Some prev =>
      match Bs4.find "a" prev with
      | None => None
      | Some tag_a =>
          match Bs4.attrs tag_a !! "href" with
          | None => None
          | Some h => Some (mkLink h (sanitize html prev))
          end
      end
  end.

(** [links] after the body of the outer [if]. *)
Definition append_link (html : string) (st : loop_state) : list Link :=
  match new_link html (previous st) with
  | None => links st
  | Some info => links st ++ [info]
  end.

(** One iteration of [for td in tds]; [None] when [cell_matches] gives
    [None]. *)
Definition loop_body (hold_pattern year_pattern : string)
    (st : loop_state) (td : Bs4.Tag) : option loop_state :=
  let html := Bs4.get_text td in
  match cell_matches hold_pattern year_pattern html with
  | None => None
  | Some true => Some (mkLoop (Some td) (append_link html st))
  | Some false => Some (mkLoop (Some td) (links st))
  end.

Fixpoint loop (hold_pattern year_pattern : string)
    (st : loop_state) (tds : list Bs4.Tag) : option loop_state :=
  match tds with
  | [] => Some st
  | td :: tds' =>
      match loop_body hold_pattern year_pattern st td with
      | None => None
      | Some st' => loop hold_pattern year_pattern st' tds'
      end
  end.

Definition initial : loop_state := mkLoop None [].

(** ** The pagination loop

    The browser, the portal and the disk are outside the program.  A
    [World] says what they answer: whether logging in and opening the
    search succeed, which cells [soup.find_all("td")] finds on the page
    with a given index ([None] when loading or parsing it raises), and
    whether the five browser and file steps of one download succeed. *)

Record World : Type := mkWorld {
  session_ok : bool;
  page_tds : Z -> option (list Bs4.Tag);
  download_ok : Link -> bool
}.

Inductive event : Type :=
| EvSession                  (* [login] and [run_search] *)
| EvListPage (i : Z)         (* [list_page(i)] *)
| EvDownload (l : Link)      (* one iteration of [download_links] *)
| EvQuit.                    (* [browser.quit()] *)

Inductive outcome : Type :=
| Returned (code : Z)
| Raised.

(** [int(s)] for a string: optional blanks around, an optional sign, then
    decimal digits that single underscores may separate; [None] is
    [ValueError].  The blanks are the six of ASCII (code points 9 to 13
    and 32) and, of the code points from 128 to 255, the two that Unicode
    counts as white space (133 and 160); no code point from 128 to 255 is
    a decimal digit.  The bound that recent versions put on the number of
    digits is not modelled. *)
Module PyInt.

Definition is_space (c : ascii) : bool :=
  let n := nat_of_ascii c in
  ((9 <=? n)%nat && (n <=? 13)%nat) || (n =? 32)%nat
  || (n =? 133)%nat || (n =? 160)%nat.

Definition digit (c : ascii) : Z := (Z.of_nat (nat_of_ascii c) - 48)%Z.

Fixpoint digits (acc : Z) (after_digit : bool) (s : string) : option Z :=
  match s with
  | "" => if after_digit then Some acc else None
  | String c s' =>
      if RePattern.is_digit c then digits (acc * 10 + digit c)%Z true s'
      else if Ascii.eqb c "_" then
        if after_digit then digits acc false s' else None
      else if is_space c && after_digit && PyStr.forallb is_space s' then Some acc
      else None
  end.

Fixpoint lstrip (s : string) : string :=
  match s with
  | String c s' => if is_space c then lstrip s' else s
  | "" => ""
  end.

Definition int (s : string) : option Z :=
  match lstrip s with
  | String "-" s' => Z.opp <$> digits 0%Z false s'
  | String "+" s' => digits 0%Z false s'
  | s' => digits 0%Z false s'
  end.

End PyInt.

(** [range(a, b)]: the integers from [a] up to, and without, [b]. *)
Definition py_range (a b : Z) : list Z :=
  map (fun k : nat => (a + Z.of_nat k)%Z) (seq 0 (Z.to_nat (b - a))).

(** [int(args.get("--start-page", 1))] for a dictionary whose values are
    strings, as the class declares its own ([Dict[str, str]]). *)
Definition start_page (args : gmap string string) : option Z :=
  match args !! "--start-page" with
  | None => Some 1%Z
  | Some s => PyInt.int s
  end.

Section Pagination.
Variable w : World.
(** The row filter of the script at hand. *)
Variable filter_rows : list Bs4.Tag -> option (list Link).

(** [download_links]: the events, and whether the loop ran to its end. *)
Fixpoint download_links (ls : list Link) : list event * bool :=
  match ls with
  | [] => ([], true)
  | l :: ls' =>
      if download_ok w l
      then let '(evs, ok) := download_links ls' in (EvDownload l :: evs, ok)
      else ([EvDownload l], false)
  end.

(** The body of [for i in range(start_page, end_page)]. *)
Definition visit_page (i : Z) : list event * bool :=
  match page_tds w i with
  | None => ([EvListPage i], false)
  | Some tds =>
      match filter_rows tds with
      | None => ([EvListPage i], false)
      | Some ls => let '(evs, ok) := download_links ls in (EvListPage i :: evs, ok)
      end
  end.

Fixpoint visit_pages (indices : list Z) : list event * bool :=
  match indices with
  | [] => ([], true)
  | i :: rest =>
      let '(evs, ok) := visit_page i in
      if ok
      then let '(evs', ok') := visit_pages rest in (evs ++ evs', ok')
      else (evs, false)
  end.

(** Login, search, [int(...)] whose result is [first] ([None] when it
    raises), the page loop, [browser.quit()], [return 0]. *)
Definition paginate_from (first : option Z) (end_page : Z)
    : list event * outcome :=
  if session_ok w then
    match first with
    | None => ([EvSession], Raised)
    | Some first =>
        let '(evs, ok) := visit_pages (py_range first end_page) in
        if ok then (EvSession :: evs ++ [EvQuit], Returned 0%Z)
        else (EvSession :: evs, Raised)
    end
  else ([EvSession], Raised).

(** The same for a dictionary whose values are strings. *)
Definition paginate (args : gmap string string) (end_page : Z)
    : list event * outcome :=
  paginate_from (start_page args) end_page.

End Pagination.

(** The indices of the pages that were asked for, in the order of the
    requests. *)
Fixpoint fetched (evs : list event) : list Z :=
  match evs with
  | [] => []
  | EvListPage i :: evs' => i :: fetched evs'
  | _ :: evs' => fetched evs'
  end.

(** ** [bin/images.py], the free functions *)

Module Bin.

Definition process_table_data (tds : list Bs4.Tag) : option (list Link) :=
  links <$> loop "Hold" ".*-21-.*" initial tds.

Definition end_page : Z := 120%Z.

Definition main (w : World) (args : gmap string string) : list event * outcome :=
  paginate w process_table_data args end_page.

End Bin.

(** ** [images.py], the class [RescuePortal]

    [self.args] is the dictionary of the command line, of type
    [Dict[str, str]]. *)

Module RescuePortal.

Definition hold_str (args : gmap string string) : string :=
  default "Hold" (args !! "--hold").

Definition year_pattern (args : gmap string string) : string :=
  default "-24-" (args !! "--year-pattern").

Definition process_table_data (args : gmap string string)
    (tds : list Bs4.Tag) : option (list Link) :=
  links <$> loop (hold_str args) (".*" +:+ year_pattern args +:+ ".*") initial tds.

Definition end_page : Z := 45%Z.

Definition run (w : World) (args : gmap string string) : list event * outcome :=
  paginate w (process_table_data args) args end_page.

End RescuePortal.

(** ** The scripts as they are started

    Both files end with [sys.exit(main(docopt.docopt(__doc__)))], and
    [main] is declared for a dictionary with values of any type
    ([Dict[str, Any]]).  In the dictionary that [docopt] builds, an option
    that takes an argument, and a positional argument, hold the string
    given on the command line, or [None] when none was given and the usage
    text states no default; an option that takes no argument holds a
    boolean.  Whether an option takes an argument is read off the
    [Options:] part of the usage text, where two blanks end the option
    and begin its description: in [images.py] every option takes an
    argument, and in [bin/images.py], where the options are aligned in a
    column, none does. *)

Module CommandLine.

Inductive value : Type :=
| VNone                  (* [None] *)
| VBool (b : bool)       (* [True] and [False] *)
| VStr (s : string).

(** [int(x)]: [None] is the [TypeError] raised for [None] and the
    [ValueError] raised for a string that is no number; [True] is [1] and
    [False] is [0]. *)
Definition int (x : value) : option Z :=
  match x with
  | VNone => None
  | VBool b => Some (Z.b2z b)
  | VStr s => PyInt.int s
  end.

(** [f"{x}"]. *)
Definition format (x : value) : string :=
  match x with
  | VNone => "None"
  | VBool true => "True"
  | VBool false => "False"
  | VStr s => s
  end.

(** [int(args.get("--start-page", 1))]. *)
Definition start_page (args : gmap string value) : option Z :=
  match args !! "--start-page" with
  | None => Some 1%Z
  | Some x => int x
  end.

(** [process_table_data] of the class.  The year pattern goes through an
    f-string and is a string whatever the dictionary holds; [re.match]
    raises [TypeError] for a hold pattern that is not a string, which
    happens at the first cell. *)
Definition process_table_data (args : gmap string value)
    (tds : list Bs4.Tag) : option (list Link) :=
  let year_pattern := default (VStr "-24-") (args !! "--year-pattern") in
  match default (VStr "Hold") (args !! "--hold") with
  | VStr hold_str =>
      links <$> loop hold_str (".*" +:+ format year_pattern +:+ ".*") initial tds
  | VNone | VBool _ =>
      match tds with
      | [] => Some []
      | _ :: _ => None
      end
  end.

(** [main(args)] of [images.py]: [RescuePortal(args).run()]. *)
Definition main (w : World) (args : gmap string value) : list event * outcome :=
  paginate_from w (process_table_data args) (start_page args) RescuePortal.end_page.

(** [main(args)] of [bin/images.py]. *)
Definition bin_main (w : World) (args : gmap string value) : list event * outcome :=
  paginate_from w Bin.process_table_data (start_page args) Bin.end_page.

(** A dictionary of strings as a dictionary of values. *)
Definition of_strings (args : gmap string string) : gmap string value :=
  VStr <$> args.

End CommandLine.

(** * The vocabulary of the properties *)

(** ** The filename *)

(** The derivation in the words of the specification: cut the string at
    the first occurrence of [sub], keep what is before it, and go on after
    it. *)
Module FilenameSpec.

Fixpoint drop (n : nat) (s : string) : string :=
  match n, s with
  | O, _ => s
  | S _, "" => ""
  | S k, String _ s' => drop k s'
  end.

(** The text before the first occurrence of [sub] and the text after it. *)
Fixpoint cut_at (sub s : string) : option (string * string) :=
  if PyStr.startswith sub s then Some ("", drop (String.length sub) s)
  else
    match s with
    | "" => None
    | String c s' =>
        match cut_at sub s' with
        | Some (before, after) => Some (String c before, after)
        | None => None
        end
    end.

Fixpoint remove_every_fuel (fuel : nat) (sub s : string) : string :=
  match fuel with
  | O => s
  | S fuel' =>
      match cut_at sub s with
      | None => s
      | Some (before, after) => before +:+ remove_every_fuel fuel' sub after
      end
  end.

(** Removing every occurrence of the substring [sub]. *)
Definition remove_every (sub s : string) : string :=
  remove_every_fuel (String.length s) sub s.

(** Removing every occurrence of the character [c]. *)
Definition remove_char (c : ascii) (s : string) : string :=
  PyStr.filter (fun x => negb (Ascii.eqb x c)) s.

(** Removing every character outside [[A-Za-z0-9-]]. *)
Definition keep_filename_chars (s : string) : string :=
  PyStr.filter filename_char s.

Definition derived_filename (previous_text current_text : string) : string :=
  keep_filename_chars
    (previous_text +:+ "-" +:+
     remove_every "Adopted" (remove_char PyStr.newline current_text)).

End FilenameSpec.

(** ** Patterns, cells and runs *)

Section Vocabulary.
Import Re RePattern Bs4.

(** No character of [k] has a meaning of its own in a pattern. *)
Definition plain (k : string) : bool := PyStr.forallb (fun c => negb (is_meta c)) k.

Fixpoint lits (k : string) : list regex :=
  match k with
  | "" => []
  | String c k' => RChr c :: lits k'
  end.

Fixpoint push_lits (k : string) (st : pstate) : pstate :=
  match k with
  | "" => st
  | String c k' => push_lits k' (push_atom (RChr c) st)
  end.

Definition lit_regex (k : string) : regex := RAlt (cat_list (lits k)) RVoid.

Definition around_regex (k : string) : regex :=
  RAlt (cat_list (RStar RAny :: lits k ++ [RStar RAny])) RVoid.

(** Both tests of a cell, for compiled patterns. *)
Definition double_match (rh ry : regex) (html : string) : bool :=
  match_ false rh html && match_ true ry html.

(** The candidate of the cell at position [i]: its text passes both tests
    and the cell before it yields a link. *)
Definition candidate_at (rh ry : regex) (tds : list Tag) (i : nat) : option Link :=
  match tds !! i with
  | None => None
  | Some td =>
      if double_match rh ry (get_text td)
      then new_link (get_text td) (match i with O => None | S j => tds !! j end)
      else None
  end.

(** The row filter of [bin/images.py] has its two patterns written out. *)
Definition bin_hold : regex := lit_regex "Hold".
Definition bin_year : regex := around_regex "-21-".

(** The link that the cell [td], read after the cells [pre], adds. *)
Definition added (rh ry : regex) (pre : list Tag) (td : Tag) : option Link :=
  if double_match rh ry (get_text td)
  then new_link (get_text td) (last pre)
  else None.

(** The first anchor below the cell in the look-back slot carries an
    [href] attribute. *)
Definition first_anchor_has_href (prev : option Tag) : Prop :=
  exists p a h, prev = Some p /\ find "a" p = Some a /\ attrs a !! "href" = Some h.

(** Some anchor below the cell carries an [href] attribute. *)
Definition some_anchor_has_href (prev : option Tag) : Prop :=
  exists p a h, prev = Some p /\ In a (find_all "a" p) /\ attrs a !! "href" = Some h.

(** A row filter [process] emits a link for a cell exactly under three
    conditions: [holds] accepts the text of the cell, the text contains
    [token], and [anchor_ok] accepts the cell before. *)
Definition emits_exactly_when (process : list Tag -> option (list Link))
    (holds : string -> bool) (token : string)
    (anchor_ok : option Tag -> Prop) : Prop :=
  forall (pre : list Tag) (td : Tag),
    let conditions :=
      holds (get_text td) = true /\
      PyStr.contains token (get_text td) = true /\
      anchor_ok (last pre) in
    exists ls,
      process pre = Some ls /\
      (conditions -> exists l, process (pre ++ [td]) = Some (ls ++ [l])) /\
      (~ conditions -> process (pre ++ [td]) = Some ls).

(** On a double match the presence of [href] on the first anchor of the
    cell before decides alone, whatever its value. *)
Definition href_presence_decides (process : list Tag -> option (list Link))
    (matches : string -> bool) : Prop :=
  forall (pre : list Tag) (prev td : Tag),
    matches (get_text td) = true ->
    exists ls,
      process (pre ++ [prev]) = Some ls /\
      (forall a h,
          find "a" prev = Some a -> attrs a !! "href" = Some h ->
          process (pre ++ [prev; td]) =
          Some (ls ++ [mkLink h (sanitize (get_text td) prev)])) /\
      (find "a" prev = None \/
       (exists a, find "a" prev = Some a /\ attrs a !! "href" = None) ->
       process (pre ++ [prev; td]) = Some ls).

(** C3 as stated: a first anchor whose [href] is the empty string adds
    nothing. *)
Definition skips_empty_href (process : list Tag -> option (list Link))
    (matches : string -> bool) : Prop :=
  forall (pre : list Tag) (prev td : Tag) (a : Tag),
    matches (get_text td) = true ->
    find "a" prev = Some a -> attrs a !! "href" = Some "" ->
    process (pre ++ [prev; td]) = process (pre ++ [prev]).

(** After each cell the look-back slot holds that cell. *)
Definition window_slides (h y : string) : Prop :=
  (forall (st : loop_state) (td : Tag),
      exists st', loop_body h y st td = Some st' /\ previous st' = Some td) /\
  (forall (pre : list Tag) (td : Tag),
      exists st', loop h y initial (pre ++ [td]) = Some st' /\ previous st' = Some td).

(** The links of [result] are the candidates of increasing positions, and
    every position with a candidate is among them. *)
Definition in_row_order (cand : nat -> option Link)
    (result : option (list Link)) : Prop :=
  exists out idxs,
    result = Some out /\
    StronglySorted lt idxs /\
    Forall2 (fun i l => cand i = Some l) idxs out /\
    (forall i, cand i <> None -> In i idxs).

(** No link comes from position [0]. *)
Definition skips_first_cell (cand : list Tag -> nat -> option Link)
    (process : list Tag -> option (list Link)) : Prop :=
  (forall td, process [td] = Some []) /\
  (forall tds, exists out idxs,
      process tds = Some out /\
      Forall (fun i => 1 <= i) idxs /\
      Forall2 (fun i l => cand tds i = Some l) idxs out).

(** C6 as stated: for a text that contains both tokens, line breaks do not
    keep either test from succeeding, i.e. when the text without its line
    breaks passes both tests, so does the text. *)
Definition line_breaks_harmless (hold_pattern year_pattern hold token : string) : Prop :=
  forall text : string,
    PyStr.contains hold text = true ->
    PyStr.contains token text = true ->
    let flat := FilenameSpec.remove_char PyStr.newline text in
    re_match false hold_pattern flat = Some true ->
    re_match true year_pattern flat = Some true ->
    re_match false hold_pattern text = Some true /\
    re_match true year_pattern text = Some true.

(** A cell whose text does not start with [hold] leaves the result as it
    is. *)
Definition hold_is_anchored (process : list Tag -> option (list Link))
    (hold : string) : Prop :=
  forall (pre : list Tag) (td : Tag),
    PyStr.startswith hold (get_text td) = false ->
    process (pre ++ [td]) = process pre.

(** C5 as stated: sanitising the output again, with the same previous
    cell, changes nothing. *)
Definition sanitize_idempotent : Prop :=
  forall (html : string) (previous : Bs4.Tag),
    sanitize (sanitize html previous) previous = sanitize html previous.

(** Everything on the page with index [i] goes through. *)
Definition page_succeeds (w : World) (f : list Bs4.Tag -> option (list Link))
    (i : Z) : Prop :=
  exists tds ls,
    page_tds w i = Some tds /\ f tds = Some ls /\ forallb (download_ok w) ls = true.

End Vocabulary.

(** ** Cells used as concrete inputs *)

Module Sample.
Import Bs4.

(** [<td>s</td>] *)
Definition text_cell (s : string) : Tag := mkTag "td" ∅ [NavigableString s].

(** [<td><a href="h">s</a></td>] *)
Definition anchor_cell (h s : string) : Tag :=
  mkTag "td" ∅ [Element (mkTag "a" {[ "href" := h ]} [NavigableString s])].

(** [<td><a name="top"></a><a href="animal?id=1">Buddy</a></td>] *)
Definition two_anchor_cell : Tag :=
  mkTag "td" ∅
    [Element (mkTag "a" {[ "name" := "top" ]} []);
     Element (mkTag "a" {[ "href" := "animal?id=1" ]} [NavigableString "Buddy"])].

(** Two rows, each an anchor cell followed by a matching cell. *)
Definition two_rows : list Tag :=
  [anchor_cell "animal?id=1" "Buddy"; text_cell "Hold-24-";
   anchor_cell "animal?id=2" "Rex"; text_cell "Hold-24-x"].

(** A portal with one matching row on page 7 and nothing elsewhere. *)
Definition quiet_world : World :=
  mkWorld true
    (fun i => Some (if (i =? 7)%Z
                    then [anchor_cell "animal?id=1" "Buddy"; text_cell "Hold-24-"]
                    else []))
    (fun _ => true).

(** A portal whose page 3 cannot be loaded. *)
Definition broken_world : World :=
  mkWorld true (fun i => if (i =? 3)%Z then None else Some []) (fun _ => true).

End Sample.

(** The dictionaries that [docopt] builds from three command lines. *)
Module SampleArgs.
Import CommandLine.

(** [images.py --pin 1 --user u --password p] *)
Definition class_without_option : gmap string value :=
  {[ "--pin" := VStr "1"; "--user" := VStr "u"; "--password" := VStr "p";
     "--start-page" := VNone;
     "--hold" := VStr "Hold"; "--year-pattern" := VStr "-24-" ]}.

(** [images.py --pin 1 --user u --password p --start-page 5] *)
Definition class_with_option : gmap string value :=
  {[ "--pin" := VStr "1"; "--user" := VStr "u"; "--password" := VStr "p";
     "--start-page" := VStr "5";
     "--hold" := VStr "Hold"; "--year-pattern" := VStr "-24-" ]}.

(** [bin/images.py --pin 1 --user u --password p --start-page 5] *)
Definition bin_with_option : gmap string value :=
  {[ "--pin" := VBool true; "<pin>" := VStr "1";
     "--user" := VBool true; "<user>" := VStr "u";
     "--password" := VBool true; "<password>" := VStr "p";
     "--start-page" := VBool true; "N" := VStr "5";
     "--hold" := VBool false; "<hold_str>" := VNone;
     "--year-pattern" := VBool false; "<year_str>" := VNone ]}.

(** [bin/images.py --pin 1 --user u --password p] *)
Definition bin_without_option : gmap string value :=
  {[ "--pin" := VBool true; "<pin>" := VStr "1";
     "--user" := VBool true; "<user>" := VStr "u";
     "--password" := VBool true; "<password>" := VStr "p";
     "--start-page" := VBool false; "N" := VNone;
     "--hold" := VBool false; "<hold_str>" := VNone;
     "--year-pattern" := VBool false; "<year_str>" := VNone ]}.

End SampleArgs.

(** ** Further properties of the row filter *)

Section RowFilterVocabulary.
Import Bs4.

(** A row filter returns at most one link for each pair of neighbouring
    cells. *)
Definition at_most_one_per_pair (process : list Tag -> option (list Link)) : Prop :=
  forall tds, exists out,
    process tds = Some out /\ length out <= length tds - 1.

(** Every link of the result comes from two neighbouring cells: the
    second passes [matches], the [href] is that of the first anchor of the
    first, and the filename is [sanitize] on the two. *)
Definition links_come_from_pairs (matches : string -> bool)
    (process : list Tag -> option (list Link)) : Prop :=
  forall tds, exists out,
    process tds = Some out /\
    Forall (fun l =>
      exists i prev td a,
        tds !! i = Some prev /\ tds !! S i = Some td /\
        matches (get_text td) = true /\
        find "a" prev = Some a /\
        attrs a !! "href" = Some (href l) /\
        filename l = sanitize (get_text td) prev) out.

(** The cells may be cut at any cell [b], when [b] is given to both
    parts. *)
Definition splits_at_any_cell (process : list Tag -> option (list Link)) : Prop :=
  forall l1 b l2, exists out1 out2,
    process (l1 ++ [b]) = Some out1 /\
    process (b :: l2) = Some out2 /\
    process (l1 ++ b :: l2) = Some (out1 ++ out2).

(** The filenames of the result can be used as file names as they are. *)
Definition safe_filenames (process : list Tag -> option (list Link)) : Prop :=
  forall tds, exists out,
    process tds = Some out /\
    Forall (fun l =>
      filename l <> "" /\
      PyStr.forallb filename_char (filename l) = true /\
      PyStr.contains "/" (filename l) = false /\
      PyStr.contains "." (filename l) = false) out.

(** The filenames of the result show the keyword after the hyphen. *)
Definition keeps_hold_keyword (process : list Tag -> option (list Link)) : Prop :=
  forall tds, exists out,
    process tds = Some out /\
    Forall (fun l => PyStr.contains "-Hold" (filename l) = true) out.

End RowFilterVocabulary.

(** ** Further properties of the pagination loop *)

(** The links that the row filter [f] finds on the page with index [i],
    and the events of a visit of that page that goes through. *)
Definition page_links (w : World) (f : list Bs4.Tag -> option (list Link))
    (i : Z) : list Link :=
  default [] (page_tds w i ≫= f).

Definition page_trace (w : World) (f : list Bs4.Tag -> option (list Link))
    (i : Z) : list event :=
  EvListPage i :: map EvDownload (page_links w f i).

(** A page on which the row filter returns and something else raises:
    loading the page, or one of its downloads. *)
Definition page_breaks (w : World) (f : list Bs4.Tag -> option (list Link))
    (i : Z) : Prop :=
  page_tds w i = None \/
  exists tds ls,
    page_tds w i = Some tds /\ f tds = Some ls /\ forallb (download_ok w) ls = false.

(** How a run ends: with [0] and [browser.quit()] as its last event, or
    with an exception and without [browser.quit()]. *)
Definition quits_iff_returns (run : list event * outcome) : Prop :=
  (run.2 = Returned 0 /\ exists evs, run.1 = evs ++ [EvQuit] /\ ~ In EvQuit evs) \/
  (run.2 = Raised /\ ~ In EvQuit run.1).

(** ** The steps of a download

    [download_links] with its browser, network and disk steps apart.  A
    [Site] says what the portal answers for the page of an animal, given
    by its address: the [src] attribute of the picture that [show_animal],
    [show_picture] and [get_pic_url] reach ([None] when one of them
    raises, [Some None] when the attribute is absent), what
    [requests.get] returns for an address ([None] when it raises) and
    whether [close_picture] goes through.  A [Disk] says whether the
    directory [pages] is there to be written to and what its files
    hold; two files are the same when their paths are, character by
    character. *)

Module Steps.

Definition base_url : string := "https://portal.rescuegroups.org/".

(** The address that [list_page(page_number)] asks for. *)
Definition list_page_url (page_number : Z) : string :=
  base_url +:+ "list?&listStart=" +:+ pretty page_number.

(** The address that [show_animal(href)] asks for. *)
Definition animal_url (href : string) : string := base_url +:+ href.

(** The file that [save_image(src, filename)] opens. *)
Definition image_path (filename : string) : string :=
  "pages/" +:+ filename +:+ ".jpg".

(** [x or ""]: [None] and the empty string both give the empty string. *)
Definition or_empty (x : option string) : string :=
  match x with
  | Some (String c s) => String c s
  | Some "" | None => ""
  end.

Record Site : Type := mkSite {
  picture_src : string -> option (option string);
  http_get : string -> option (list Byte.byte);
  picture_closes : string -> bool
}.

Record Disk : Type := mkDisk {
  pages_dir : bool;
  files : gmap string (list Byte.byte)
}.

(** The longest name of a file, in bytes, on the file systems in common
    use ([NAME_MAX]). *)
Definition name_max : nat := 255.

(** Whether [filename] names a file that the directory [pages] can hold:
    it has no slash and no NUL character in it, and with [".jpg"] it is
    no longer than [name_max]. *)
Definition name_fits (filename : string) : bool :=
  negb (PyStr.contains "/" filename)
  && negb (PyStr.contains (String (Ascii.ascii_of_nat 0) "") filename)
  && (PyStr.utf8_length (filename +:+ ".jpg") <=? name_max)%nat.

(** [save_image]: [open(path, "wb")] creates or empties the file, or raises
    when the directory is missing; then the picture is fetched; then its
    bytes are written.  The flag is [false] when a step raised.  That
    [open] also raises for a name that does not fit is not modelled:
    what is said below of files that were written is said of names that
    fit. *)
Definition save_image (site : Site) (d : Disk) (src filename : string) : Disk * bool :=
  if pages_dir d then
    let opened := mkDisk true (<[image_path filename := []]> (files d)) in
    match http_get site src with
    | None => (opened, false)
    | Some content =>
        (mkDisk true (<[image_path filename := content]> (files opened)), true)
    end
  else (d, false).

(** [download_links]: for each link the page of the animal, its picture,
    the address of the picture, [save_image], [close_picture]. *)
Fixpoint download_links (site : Site) (d : Disk) (ls : list Link) : Disk * bool :=
  match ls with
  | [] => (d, true)
  | link :: rest =>
      match picture_src site (animal_url (href link)) with
      | None => (d, false)
      | Some attr =>
          let '(d', saved) := save_image site d (or_empty attr) (filename link) in
          if saved && picture_closes site (animal_url (href link))
          then download_links site d' rest
          else (d', false)
      end
  end.

(** What the last link of [ls] called [name] makes [save_image] write. *)
Fixpoint last_image (site : Site) (ls : list Link) (name : string)
    : option (list Byte.byte) :=
  match ls with
  | [] => None
  | link :: rest =>
      match last_image site rest name with
      | Some content => Some content
      | None =>
          if String.eqb (filename link) name
          then picture_src site (animal_url (href link)) ≫=
               (fun attr => http_get site (or_empty attr))
          else None
      end
  end.

End Steps.

(** A portal with two animals whose pictures can be fetched and a third
    whose picture has no [src]; two disks, with and without [pages]. *)
Module StepsSample.
Import Steps.

Definition site : Site :=
  mkSite
    (fun url =>
       if String.eqb url (animal_url "animal?id=1") then Some (Some "http://img/1.jpg")
       else if String.eqb url (animal_url "animal?id=2") then Some (Some "http://img/2.jpg")
       else if String.eqb url (animal_url "animal?id=3") then Some None
       else None)
    (fun src =>
       if String.eqb src "http://img/1.jpg" then Some [x01]
       else if String.eqb src "http://img/2.jpg" then Some [x02]
       else None)
    (fun _ => true).

Definition empty_disk : Disk := mkDisk true ∅.
Definition no_directory : Disk := mkDisk false ∅.

Definition first_buddy : Link := mkLink "animal?id=1" "Buddy-Hold".
Definition second_buddy : Link := mkLink "animal?id=2" "Buddy-Hold".

End StepsSample.

(** * Lemmas and theorems *)

(** ** Strings *)

Module PyStrFacts.
Import PyStr.

Lemma app_nil_r (s : string) : s +:+ "" = s.
Proof. induction s as [|c s IH]; simpl; [reflexivity | now rewrite IH]. Qed.

Lemma app_assoc (s1 s2 s3 : string) : (s1 +:+ s2) +:+ s3 = s1 +:+ (s2 +:+ s3).
Proof. induction s1 as [|c s1 IH]; simpl; [reflexivity | now rewrite IH]. Qed.

Lemma app_eq_nil (s1 s2 : string) : s1 +:+ s2 = "" -> s1 = "" /\ s2 = "".
Proof. destruct s1; simpl; [auto | discriminate]. Qed.

Lemma startswith_spec (old s : string) :
  startswith old s = true <-> exists rest, s = old +:+ rest.
Proof.
  revert s; induction old as [|a old IH]; intros s; simpl.
  - split; [intros _; now exists s | reflexivity].
  - destruct s as [|b s].
    + split; [discriminate | intros [rest H]; discriminate].
    + rewrite andb_true_iff, Ascii.eqb_eq, IH. split.
      * intros [-> [rest ->]]. now exists rest.
      * intros [rest H]. injection H as -> ->. split; [reflexivity | now exists rest].
Qed.

Lemma contains_spec (sub s : string) :
  contains sub s = true <-> exists pre post, s = pre +:+ sub +:+ post.
Proof.
  induction s as [|c s IH]; simpl; rewrite orb_true_iff.
  - rewrite startswith_spec. split.
    + intros [[rest H] | H]; [|discriminate]. now exists "", rest.
    + intros [pre [post H]]. left. symmetry in H.
      apply app_eq_nil in H as [-> H]. simpl in H. now exists post.
  - rewrite startswith_spec, IH. split.
    + intros [[rest H] | [pre [post H]]].
      * now exists "", rest.
      * exists (String c pre), post. simpl. now rewrite H.
    + intros [[|a pre] [post H]]; simpl in H.
      * left. now exists post.
      * right. injection H as -> ->. now exists pre, post.
Qed.

Lemma filter_app (keep : ascii -> bool) (s1 s2 : string) :
  filter keep (s1 +:+ s2) = filter keep s1 +:+ filter keep s2.
Proof.
  induction s1 as [|c s1 IH]; simpl; [reflexivity|].
  destruct (keep c); simpl; now rewrite IH.
Qed.

Lemma filter_forallb (keep : ascii -> bool) (s : string) :
  forallb keep (filter keep s) = true.
Proof.
  induction s as [|c s IH]; simpl; [reflexivity|].
  destruct (keep c) eqn:E; simpl; [now rewrite E | exact IH].
Qed.

Lemma filter_id (keep : ascii -> bool) (s : string) :
  forallb keep s = true -> filter keep s = s.
Proof.
  induction s as [|c s IH]; simpl; [reflexivity|].
  intros [Hc Hs]%andb_true_iff. rewrite Hc. now rewrite IH.
Qed.

End PyStrFacts.

(** ** The matcher decides the language *)

Module ReFacts.
Import Re.

Section Language.
Variable dotall : bool.

Local Abbreviation lang := (Re.lang dotall).
Local Abbreviation lang_cat := (Re.lang_cat dotall).
Local Abbreviation lang_alt_l := (Re.lang_alt_l dotall).
Local Abbreviation lang_alt_r := (Re.lang_alt_r dotall).
Local Abbreviation lang_star_cons := (Re.lang_star_cons dotall).
Local Abbreviation deriv := (Re.deriv dotall).
Local Abbreviation fullmatch := (Re.fullmatch dotall).
Local Abbreviation match_ := (Re.match_ dotall).

Lemma nullable_spec (r : regex) : nullable r = true <-> lang r "".
Proof.
  induction r as [| |c| |r1 IH1 r2 IH2|r1 IH1 r2 IH2|r IH]; simpl.
  - split; [discriminate | inversion 1].
  - split; [constructor | reflexivity].
  - split; [discriminate | inversion 1].
  - split; [discriminate | inversion 1].
  - rewrite andb_true_iff, IH1, IH2. split.
    + intros [H1 H2]. exact (lang_cat _ _ _ _ H1 H2).
    + inversion 1 as [| | |? ? s1 s2 H1 H2 E1 E2| | | |]; subst.
      apply PyStrFacts.app_eq_nil in E2 as [-> ->]. now split.
  - rewrite orb_true_iff, IH1, IH2. split.
    + intros [H|H]; [now apply lang_alt_l | now apply lang_alt_r].
    + inversion 1; subst; auto.
  - split; [constructor | reflexivity].
Qed.

(** A word of [r*] that starts with [c] starts with a word of [r] that
    starts with [c]. *)
Lemma lang_star_uncons (r : regex) (c : ascii) (s : string) :
  lang (RStar r) (String c s) ->
  exists s1 s2, s = s1 +:+ s2 /\ lang r (String c s1) /\ lang (RStar r) s2.
Proof.
  intros H. remember (RStar r) as r' eqn:Er. remember (String c s) as w eqn:Ew.
  revert s Ew.
  induction H as [| | | | | | |r0 s1 s2 H1 _ H2 IH2]; try discriminate.
  injection Er as ->. intros s Ew. destruct s1 as [|a s1]; simpl in Ew.
  - now apply IH2.
  - injection Ew as -> <-. now exists s1, s2.
Qed.

Lemma deriv_spec (c : ascii) (r : regex) (s : string) :
  lang (deriv c r) s <-> lang r (String c s).
Proof.
  revert s.
  induction r as [| |a| |r1 IH1 r2 IH2|r1 IH1 r2 IH2|r IH]; intros s; simpl.
  - split; inversion 1.
  - split; inversion 1.
  - destruct (Ascii.eqb a c) eqn:E.
    + apply Ascii.eqb_eq in E as ->. split; inversion 1; subst; constructor.
    + split; inversion 1; subst. rewrite Ascii.eqb_refl in E. discriminate.
  - destruct (dot_accepts dotall c) eqn:E.
    + split; inversion 1; subst; now constructor.
    + split; inversion 1; subst. congruence.
  - assert (Hcat : lang (RCat (deriv c r1) r2) s <->
                   exists s1 s2, s = s1 +:+ s2 /\ lang r1 (String c s1) /\ lang r2 s2).
    { split.
      - inversion 1 as [| | |? ? s1 s2 H1 H2| | | |]; subst.
        exists s1, s2. rewrite <- IH1. auto.
      - intros (s1 & s2 & -> & H1 & H2). apply lang_cat; [now apply IH1 | assumption]. }
    assert (Hsplit : lang (RCat r1 r2) (String c s) <->
                     (exists s1 s2, s = s1 +:+ s2 /\ lang r1 (String c s1) /\ lang r2 s2)
                     \/ (lang r1 "" /\ lang r2 (String c s))).
    { split.
      - inversion 1 as [| | |? ? s1 s2 H1 H2 E1 E2| | | |]; subst.
        destruct s1 as [|a s1]; simpl in E2.
        + right. subst. auto.
        + injection E2 as -> <-. left. now exists s1, s2.
      - intros [(s1 & s2 & -> & H1 & H2) | [H1 H2]].
        + exact (lang_cat _ _ _ _ H1 H2).
        + exact (lang_cat _ _ _ _ H1 H2). }
    rewrite Hsplit. destruct (nullable r1) eqn:N.
    + apply nullable_spec in N. split.
      * inversion 1; subst; [left; now apply Hcat | right; split; [assumption | now apply IH2]].
      * intros [H | [_ H]]; [apply lang_alt_l; now apply Hcat | apply lang_alt_r; now apply IH2].
    + rewrite Hcat. split; [auto|]. intros [H | [H _]]; [assumption|].
      apply nullable_spec in H. congruence.
  - split.
    + inversion 1; subst; [apply lang_alt_l; now apply IH1 | apply lang_alt_r; now apply IH2].
    + inversion 1; subst; [apply lang_alt_l; now apply IH1 | apply lang_alt_r; now apply IH2].
  - split.
    + inversion 1 as [| | |? ? s1 s2 H1 H2| | | |]; subst.
      apply IH in H1. exact (lang_star_cons _ _ _ H1 H2).
    + intros H. apply lang_star_uncons in H as (s1 & s2 & -> & H1 & H2).
      apply lang_cat; [now apply IH | assumption].
Qed.

Lemma fullmatch_spec (r : regex) (s : string) :
  fullmatch r s = true <-> lang r s.
Proof.
  revert r; induction s as [|c s IH]; intros r; simpl.
  - apply nullable_spec.
  - rewrite IH. apply deriv_spec.
Qed.

(** [re.match] succeeds exactly when a prefix of the text is a word of
    the pattern. *)
Lemma match_spec (r : regex) (s : string) :
  match_ r s = true <-> exists p q, s = p +:+ q /\ lang r p.
Proof.
  revert r; induction s as [|c s IH]; intros r; simpl; rewrite orb_true_iff.
  - rewrite nullable_spec. split.
    + intros [H|H]; [|discriminate]. now exists "", "".
    + intros (p & q & E & H). symmetry in E.
      apply PyStrFacts.app_eq_nil in E as [-> _]. now left.
  - rewrite nullable_spec, IH. split.
    + intros [H | (p & q & -> & H)].
      * now exists "", (String c s).
      * exists (String c p), q. split; [reflexivity | now apply deriv_spec].
    + intros ([|a p] & q & E & H); simpl in E.
      * now left.
      * injection E as -> ->. right. exists p, q. split; [reflexivity | now apply deriv_spec].
Qed.

End Language.

End ReFacts.

(** ** Patterns without special characters *)

Section PlainPatterns.
Import Re ReFacts RePattern.

Lemma step_plain (st : pstate) (c : ascii) :
  is_meta c = false -> escaped st = false ->
  step st c = Some (push_atom (RChr c) st).
Proof.
  intros Hc He. unfold step. rewrite He.
  destruct c as [[] [] [] [] [] [] [] []]; try discriminate Hc; reflexivity.
Qed.

Lemma parse_plain (k rest : string) (st : pstate) :
  plain k = true -> escaped st = false ->
  parse st (k +:+ rest) = parse (push_lits k st) rest.
Proof.
  revert st; induction k as [|c k IH]; intros st Hk He; simpl; [reflexivity|].
  simpl in Hk. apply andb_true_iff in Hk as [Hc Hk].
  apply negb_true_iff in Hc. rewrite (step_plain _ _ Hc He).
  now apply IH.
Qed.

Lemma push_lits_state (k : string) (st : pstate) :
  outer (push_lits k st) = outer st /\
  branches (cur (push_lits k st)) = branches (cur st) /\
  atoms (cur (push_lits k st)) = rev (lits k) ++ atoms (cur st) /\
  (escaped st = false -> escaped (push_lits k st) = false).
Proof.
  revert st; induction k as [|c k IH]; intros st; simpl.
  - auto.
  - destruct (IH (push_atom (RChr c) st)) as (Ho & Hb & Ha & He).
    rewrite Ho, Hb, Ha. simpl. rewrite <- app_assoc. auto.
Qed.

Lemma compile_plain (k : string) :
  plain k = true -> compile k = Some (lit_regex k).
Proof.
  intros Hk. unfold compile.
  pose proof (parse_plain k "" init Hk eq_refl) as E.
  rewrite PyStrFacts.app_nil_r in E. rewrite E. simpl.
  destruct (push_lits_state k init) as (Ho & Hb & Ha & He).
  rewrite (He eq_refl), Ho. simpl. unfold close_frame, close_branch.
  rewrite Hb, Ha. simpl. rewrite app_nil_r, rev_involutive. reflexivity.
Qed.

Lemma compile_around (k : string) :
  plain k = true -> compile (".*" +:+ k +:+ ".*") = Some (around_regex k).
Proof.
  intros Hk. unfold compile. simpl.
  rewrite parse_plain by (assumption || reflexivity). simpl.
  set (st := mkPState _ _ _ _).
  destruct (push_lits_state k st) as (Ho & Hb & Ha & He).
  unfold step. rewrite (He eq_refl). simpl. rewrite Ho. simpl.
  unfold close_frame, close_branch. simpl. rewrite Hb, Ha. simpl.
  rewrite rev_app_distr, rev_involutive. simpl. reflexivity.
Qed.

Lemma lang_alt_void (d : bool) (r : regex) (s : string) :
  lang d (RAlt r RVoid) s <-> lang d r s.
Proof.
  split; [|apply lang_alt_l].
  inversion 1 as [| | | |? ? ? H1|? ? ? H1| |]; subst; [assumption | inversion H1].
Qed.

Lemma lang_cat_list_app (d : bool) (l1 l2 : list regex) (s : string) :
  lang d (cat_list (l1 ++ l2)) s <->
  exists s1 s2, s = s1 +:+ s2 /\ lang d (cat_list l1) s1 /\ lang d (cat_list l2) s2.
Proof.
  revert s; induction l1 as [|r l1 IH]; intros s; simpl.
  - split.
    + intros H. exists "", s. repeat split; [constructor | assumption].
    + intros (s1 & s2 & -> & H1 & H2). inversion H1; subst. assumption.
  - split.
    + inversion 1 as [| | |? ? a b Ha Hb| | | |]; subst.
      apply IH in Hb as (s1 & s2 & -> & H1 & H2).
      exists (a +:+ s1), s2. rewrite PyStrFacts.app_assoc.
      repeat split; [now constructor | assumption].
    + intros (s1 & s2 & -> & H1 & H2).
      inversion H1 as [| | |? ? a b Ha Hb| | | |]; subst.
      rewrite PyStrFacts.app_assoc. constructor; [assumption|].
      apply IH. now exists b, s2.
Qed.

Lemma lang_lits (d : bool) (k s : string) :
  lang d (cat_list (lits k)) s <-> s = k.
Proof.
  revert s; induction k as [|c k IH]; intros s; simpl.
  - split; [now inversion 1 | intros ->; constructor].
  - split.
    + inversion 1 as [| | |? ? a b Ha Hb| | | |]; subst.
      inversion Ha; subst. apply IH in Hb as ->. reflexivity.
    + intros ->. apply (lang_cat d (RChr c) _ (String c "") k); [constructor | now apply IH].
Qed.

Lemma lang_any_star (s : string) : lang true (RStar RAny) s.
Proof.
  induction s as [|c s IH]; [constructor|].
  apply (lang_star_cons true RAny (String c "") s); [now constructor | assumption].
Qed.

Lemma lang_single (d : bool) (r : regex) (s : string) :
  lang d (cat_list [r]) s <-> lang d r s.
Proof.
  simpl. split.
  - inversion 1 as [| | |? ? a b Ha Hb| | | |]; subst. inversion Hb; subst.
    now rewrite PyStrFacts.app_nil_r.
  - intros H. rewrite <- (PyStrFacts.app_nil_r s). constructor; [assumption | constructor].
Qed.

(** A plain pattern is matched by the texts that start with it. *)
Lemma match_lit (d : bool) (k text : string) :
  match_ d (lit_regex k) text = PyStr.startswith k text.
Proof.
  apply eq_true_iff_eq. rewrite match_spec, PyStrFacts.startswith_spec. split.
  - intros (p0 & q & -> & H). apply (proj1 (lang_alt_void _ _ _)) in H.
    apply lang_lits in H as ->. now exists q.
  - intros [rest ->]. exists k, rest. split; [reflexivity|].
    now apply lang_alt_void, lang_lits.
Qed.

(** With [re.DOTALL], [.*k.*] for a plain [k] is matched by the texts
    that contain [k]. *)
Lemma match_around (k text : string) :
  match_ true (around_regex k) text = PyStr.contains k text.
Proof.
  apply eq_true_iff_eq. rewrite match_spec, PyStrFacts.contains_spec. split.
  - intros (p0 & q & -> & H). apply (proj1 (lang_alt_void _ _ _)) in H.
    change (RStar RAny :: lits k ++ [RStar RAny])
      with ([RStar RAny] ++ (lits k ++ [RStar RAny])) in H.
    apply lang_cat_list_app in H as (a & b & -> & _ & H).
    apply lang_cat_list_app in H as (m & e & -> & Hm & _).
    apply lang_lits in Hm as ->.
    exists a, (e +:+ q). now rewrite !PyStrFacts.app_assoc.
  - intros (pre & post & ->). exists (pre +:+ k +:+ post), "".
    split; [now rewrite PyStrFacts.app_nil_r|].
    apply lang_alt_void.
    change (RStar RAny :: lits k ++ [RStar RAny])
      with ([RStar RAny] ++ (lits k ++ [RStar RAny])).
    apply lang_cat_list_app. exists pre, (k +:+ post). split; [reflexivity|]. split.
    + apply lang_single, lang_any_star.
    + apply lang_cat_list_app. exists k, post. split; [reflexivity|]. split.
      * now apply lang_lits.
      * apply lang_single, lang_any_star.
Qed.

Lemma re_match_plain (d : bool) (k text : string) :
  plain k = true -> re_match d k text = Some (PyStr.startswith k text).
Proof.
  intros Hk. unfold re_match. rewrite (compile_plain k Hk). now rewrite match_lit.
Qed.

Lemma re_match_around (k text : string) :
  plain k = true ->
  re_match true (".*" +:+ k +:+ ".*") text = Some (PyStr.contains k text).
Proof.
  intros Hk. unfold re_match. rewrite (compile_around k Hk). now rewrite match_around.
Qed.

End PlainPatterns.

(** ** The loop of [process_table_data] *)

Section RowFilter.
Import Re RePattern Bs4.

(** The two patterns handed to [re.match], and what they compile to. *)
Variables hold year : string.
Variables rh ry : regex.
Hypothesis hold_compiles : compile hold = Some rh.
Hypothesis year_compiles : compile year = Some ry.

Lemma cell_matches_compiled (html : string) :
  cell_matches hold year html = Some (double_match rh ry html).
Proof.
  unfold cell_matches, re_match, double_match.
  rewrite hold_compiles, year_compiles. now destruct (match_ false rh html).
Qed.

Lemma loop_body_compiled (st : loop_state) (td : Tag) :
  loop_body hold year st td =
  Some (mkLoop (Some td)
          (if double_match rh ry (get_text td) then append_link (get_text td) st else links st)).
Proof.
  unfold loop_body. rewrite cell_matches_compiled.
  now destruct (double_match rh ry (get_text td)).
Qed.

Lemma loop_app (h y : string) (st : loop_state) (l1 l2 : list Tag) :
  loop h y st (l1 ++ l2) =
  match loop h y st l1 with
  | None => None
  | Some st' => loop h y st' l2
  end.
Proof.
  revert st; induction l1 as [|td l1 IH]; intros st; simpl; [reflexivity|].
  destruct (loop_body h y st td); [apply IH | reflexivity].
Qed.

(** With patterns that compile the loop runs to its end. *)
Lemma loop_total (st : loop_state) (tds : list Tag) :
  exists st', loop hold year st tds = Some st'.
Proof.
  revert st; induction tds as [|td tds IH]; intros st; simpl; [now exists st|].
  rewrite loop_body_compiled. apply IH.
Qed.

Lemma candidate_at_app_l (tds : list Tag) (td : Tag) (i : nat) :
  i < length tds -> candidate_at rh ry (tds ++ [td]) i = candidate_at rh ry tds i.
Proof.
  intros Hi. unfold candidate_at. rewrite lookup_app_l by assumption.
  destruct i as [|j]; [reflexivity|]. rewrite (lookup_app_l _ _ j) by lia. reflexivity.
Qed.

Lemma candidate_at_last (tds : list Tag) (td : Tag) :
  candidate_at rh ry (tds ++ [td]) (length tds) =
  if double_match rh ry (get_text td) then new_link (get_text td) (last tds) else None.
Proof.
  unfold candidate_at. rewrite list_lookup_middle by reflexivity.
  destruct (double_match rh ry (get_text td)); [|reflexivity]. f_equal.
  destruct tds as [|t0 tds] using rev_ind; [reflexivity|].
  rewrite length_app, last_snoc. simpl.
  replace (length tds + 1) with (S (length tds)) by lia.
  rewrite lookup_app_l by (rewrite length_app; simpl; lia).
  now rewrite list_lookup_middle.
Qed.

Lemma omap_ext_in {A B : Type} (f g : A -> option B) (l : list A) :
  (forall x, In x l -> f x = g x) -> omap f l = omap g l.
Proof.
  intros H. apply list_omap_ext.
  induction l as [|x l IH]; constructor.
  - apply H. now left.
  - apply IH. intros y Hy. apply H. now right.
Qed.

(** The state after the cells [tds]: the look-back slot holds the last
    cell, and [links] holds the candidates of the positions [0], [1], ...
    in that order. *)
Lemma loop_state_after (tds : list Tag) :
  loop hold year initial tds =
  Some (mkLoop (last tds) (omap (candidate_at rh ry tds) (seq 0 (length tds)))).
Proof.
  induction tds as [|td tds IH] using rev_ind; [reflexivity|].
  rewrite loop_app, IH. simpl. rewrite loop_body_compiled. f_equal.
  rewrite last_snoc, length_app. simpl.
  replace (length tds + 1) with (S (length tds)) by lia.
  rewrite seq_S, omap_app. simpl. rewrite candidate_at_last.
  rewrite (omap_ext_in (candidate_at rh ry (tds ++ [td])) (candidate_at rh ry tds)).
  2:{ intros i Hi. apply in_seq in Hi. apply candidate_at_app_l. lia. }
  unfold append_link. simpl.
  destruct (double_match rh ry (get_text td)); [|now rewrite app_nil_r].
  destruct (new_link (get_text td) (last tds)); [reflexivity | now rewrite app_nil_r].
Qed.

(** What one more cell adds to the result. *)
Lemma loop_snoc (pre : list Tag) (td : Tag) :
  exists st,
    loop hold year initial pre = Some st /\
    previous st = last pre /\
    loop hold year initial (pre ++ [td]) =
    Some (mkLoop (Some td)
            (if double_match rh ry (get_text td)
             then append_link (get_text td) st
             else links st)).
Proof.
  rewrite loop_app, loop_state_after. eexists. split; [reflexivity|].
  split; [reflexivity|]. simpl. now rewrite loop_body_compiled.
Qed.

Lemma candidate_at_first (tds : list Tag) : candidate_at rh ry tds 0 = None.
Proof.
  unfold candidate_at. destruct (tds !! 0); [|reflexivity].
  now destruct (double_match rh ry _).
Qed.

End RowFilter.

(** The positions that [omap] keeps, in increasing order. *)
Lemma omap_positions {B : Type} (f : nat -> option B) (a n : nat) :
  exists idxs,
    StronglySorted lt idxs /\
    Forall (fun i => a <= i < a + n) idxs /\
    Forall2 (fun i y => f i = Some y) idxs (omap f (seq a n)) /\
    (forall i, a <= i < a + n -> f i <> None -> In i idxs).
Proof.
  revert a; induction n as [|n IH]; intros a; simpl.
  - exists []. repeat split; try constructor. intros i Hi. lia.
  - destruct (IH (S a)) as (idxs & Hs & Hb & Hf & Hc).
    destruct (f a) as [y|] eqn:Ea.
    + exists (a :: idxs). repeat split.
      * constructor; [assumption|]. eapply Forall_impl; [exact Hb|].
        simpl. intros i Hi. lia.
      * constructor; [lia|]. eapply Forall_impl; [exact Hb|]. simpl. intros i Hi. lia.
      * now constructor.
      * intros i Hi Hne. destruct (Nat.eq_dec i a) as [->|Hia]; [now left|].
        right. apply Hc; [lia | assumption].
    + exists idxs. repeat split; try assumption.
      * eapply Forall_impl; [exact Hb|]. simpl. intros i Hi. lia.
      * intros i Hi Hne. destruct (Nat.eq_dec i a) as [->|Hia]; [congruence|].
        apply Hc; [lia | assumption].
Qed.

(** ** The row filter of both scripts *)

Section RowFilterClaims.
Import Re RePattern Bs4.

Lemma bin_hold_compiles : compile "Hold" = Some bin_hold.
Proof. reflexivity. Qed.

Lemma bin_year_compiles : compile ".*-21-.*" = Some bin_year.
Proof. reflexivity. Qed.

Lemma filter_snoc (h y : string) (rh ry : regex) (pre : list Tag) (td : Tag) :
  compile h = Some rh -> compile y = Some ry ->
  exists ls,
    links <$> loop h y initial pre = Some ls /\
    links <$> loop h y initial (pre ++ [td]) =
    Some (ls ++ option_list (added rh ry pre td)).
Proof.
  intros Hh Hy.
  destruct (loop_snoc h y rh ry Hh Hy pre td) as (st & Hpre & Hprev & Hsnoc).
  exists (links st). rewrite Hpre, Hsnoc. split; [reflexivity|]. simpl. f_equal.
  unfold added, append_link. rewrite Hprev.
  destruct (double_match rh ry (get_text td)); [|now rewrite app_nil_r].
  destruct (new_link (get_text td) (last pre)); [reflexivity | now rewrite app_nil_r].
Qed.

Lemma filter_rows_positions (h y : string) (rh ry : regex) (tds : list Tag) :
  compile h = Some rh -> compile y = Some ry ->
  links <$> loop h y initial tds =
  Some (omap (candidate_at rh ry tds) (seq 0 (length tds))).
Proof.
  intros Hh Hy. now rewrite (loop_state_after h y rh ry Hh Hy).
Qed.

Lemma new_link_is_some (html : string) (prev : option Tag) :
  (exists l, new_link html prev = Some l) <-> first_anchor_has_href prev.
Proof.
  unfold new_link, first_anchor_has_href. split.
  - intros [l H]. destruct prev as [p|]; [|discriminate].
    destruct (find "a" p) as [a|] eqn:Ef; [|discriminate].
    destruct (attrs a !! "href") as [h|] eqn:Eh; [|discriminate].
    now exists p, a, h.
  - intros (p & a & h & -> & -> & ->). eauto.
Qed.

Lemma new_link_is_none (html : string) (prev : option Tag) :
  ~ first_anchor_has_href prev -> new_link html prev = None.
Proof.
  intros H. destruct (new_link html prev) as [l|] eqn:E; [|reflexivity].
  exfalso. apply H. apply (new_link_is_some html). now exists l.
Qed.

Lemma emits_exactly_when_loop (h k : string) (rh : regex) :
  compile h = Some rh -> plain k = true ->
  emits_exactly_when (fun tds => links <$> loop h (".*" +:+ k +:+ ".*") initial tds)
    (match_ false rh) k first_anchor_has_href.
Proof.
  intros Hh Hk pre td conditions.
  destruct (filter_snoc h _ rh (around_regex k) pre td Hh (compile_around k Hk))
    as (ls & Hpre & Hsnoc).
  exists ls. split; [exact Hpre|]. rewrite Hsnoc. unfold added, double_match.
  rewrite match_around. subst conditions. split.
  - intros (Ha & Hb & Hc). rewrite Ha, Hb. simpl.
    apply (new_link_is_some (get_text td)) in Hc as [l ->]. now exists l.
  - intros Hn. destruct (match_ false rh (get_text td)) eqn:Ea; simpl;
      [|now rewrite app_nil_r].
    destruct (PyStr.contains k (get_text td)) eqn:Eb; simpl; [|now rewrite app_nil_r].
    rewrite new_link_is_none; [now rewrite app_nil_r|]. intros Hc. now apply Hn.
Qed.

Lemma href_presence_decides_loop (h y : string) (rh ry : regex) :
  compile h = Some rh -> compile y = Some ry ->
  href_presence_decides (fun tds => links <$> loop h y initial tds) (double_match rh ry).
Proof.
  intros Hh Hy pre prev td Hm.
  destruct (filter_snoc h y rh ry (pre ++ [prev]) td Hh Hy) as (ls & Hpre & Hsnoc).
  exists ls. split; [exact Hpre|].
  replace (pre ++ [prev; td]) with ((pre ++ [prev]) ++ [td]) by now rewrite <- app_assoc.
  rewrite Hsnoc. unfold added. rewrite Hm, last_snoc. unfold new_link. split.
  - intros a hr -> ->. reflexivity.
  - intros [-> | (a & -> & ->)]; now rewrite app_nil_r.
Qed.

Lemma window_slides_loop (h y : string) (rh ry : regex) :
  compile h = Some rh -> compile y = Some ry -> window_slides h y.
Proof.
  intros Hh Hy. split.
  - intros st td. rewrite (loop_body_compiled h y rh ry Hh Hy). eauto.
  - intros pre td.
    destruct (loop_snoc h y rh ry Hh Hy pre td) as (st & _ & _ & ->). eauto.
Qed.

Lemma in_row_order_loop (h y : string) (rh ry : regex) (tds : list Tag) :
  compile h = Some rh -> compile y = Some ry ->
  in_row_order (candidate_at rh ry tds) (links <$> loop h y initial tds).
Proof.
  intros Hh Hy. rewrite (filter_rows_positions h y rh ry tds Hh Hy).
  destruct (omap_positions (candidate_at rh ry tds) 0 (length tds))
    as (idxs & Hs & _ & Hf & Hc).
  eexists; exists idxs. repeat split; try eassumption; try reflexivity.
  intros i Hi. apply Hc; [|assumption]. split; [lia|]. simpl.
  apply lookup_lt_is_Some. unfold candidate_at in Hi.
  destruct (tds !! i); [eauto | congruence].
Qed.

Lemma skips_first_cell_loop (h y : string) (rh ry : regex) :
  compile h = Some rh -> compile y = Some ry ->
  skips_first_cell (candidate_at rh ry) (fun tds => links <$> loop h y initial tds).
Proof.
  intros Hh Hy. split.
  - intros td. rewrite (filter_rows_positions h y rh ry [td] Hh Hy). simpl.
    now rewrite candidate_at_first.
  - intros tds. rewrite (filter_rows_positions h y rh ry tds Hh Hy).
    destruct (omap_positions (candidate_at rh ry tds) 0 (length tds))
      as (idxs & _ & _ & Hf & _).
    eexists; exists idxs. repeat split; try eassumption; try reflexivity.
    clear -Hf. induction Hf as [|i l idxs out Hi _ IH]; constructor; [|exact IH].
    destruct i; [|lia]. rewrite candidate_at_first in Hi. discriminate.
Qed.

End RowFilterClaims.

(** ** Claims on the row filter *)

Section RowFilterTheorems.
Import Re RePattern Bs4 Sample.

Lemma emits_exactly_when_ext (process : list Tag -> option (list Link))
    (holds holds' : string -> bool) (token : string) (ok : option Tag -> Prop) :
  (forall s, holds s = holds' s) ->
  emits_exactly_when process holds token ok ->
  emits_exactly_when process holds' token ok.
Proof.
  intros E H pre td. specialize (H pre td). simpl in *. now rewrite <- E.
Qed.

(** C1, as amended.  In both scripts a cell adds a candidate link exactly
    when (a) its text matches the hold pattern, (b) its text contains the
    year token (a token without special characters, as the defaults are)
    and (c) the first anchor of the cell just before it has an [href]
    attribute; otherwise the result is left as it was, and in either case
    the filter returns. *)
Theorem row_filter_emits_exactly_when (args : gmap string string) (rh : regex) :
  compile (RescuePortal.hold_str args) = Some rh ->
  plain (RescuePortal.year_pattern args) = true ->
  emits_exactly_when (RescuePortal.process_table_data args)
    (match_ false rh) (RescuePortal.year_pattern args) first_anchor_has_href /\
  emits_exactly_when Bin.process_table_data
    (PyStr.startswith "Hold") "-21-" first_anchor_has_href.
Proof.
  intros Hh Hk. split.
  - exact (emits_exactly_when_loop _ _ rh Hh Hk).
  - apply (emits_exactly_when_ext _ (match_ false bin_hold)).
    + intros s. apply match_lit.
    + exact (emits_exactly_when_loop "Hold" "-21-" bin_hold eq_refl eq_refl).
Qed.

Lemma row_filter_emits_exactly_when_witness :
  compile (RescuePortal.hold_str ∅) = Some bin_hold /\
  plain (RescuePortal.year_pattern ∅) = true /\
  emits_exactly_when (RescuePortal.process_table_data ∅)
    (match_ false bin_hold) (RescuePortal.year_pattern ∅) first_anchor_has_href /\
  emits_exactly_when Bin.process_table_data
    (PyStr.startswith "Hold") "-21-" first_anchor_has_href.
Proof.
  split; [reflexivity|]. split; [reflexivity|].
  apply (row_filter_emits_exactly_when ∅ bin_hold); reflexivity.
Defined.

(** C1 as stated fails.  With an anchor that has an [href] somewhere in
    the cell before, but not as its first anchor, the three conditions hold
    and no candidate is added.  With the year token [-2.-] the text
    "Hold-23-" adds a candidate and does not contain the token.  With
    the hold keyword [(], which [re] rejects, the filter raises. *)
Lemma row_filter_any_anchor_counterexample :
  RescuePortal.process_table_data ∅ [two_anchor_cell; text_cell "Hold-24-"] = Some [] /\
  ~ emits_exactly_when (RescuePortal.process_table_data ∅)
      (PyStr.startswith "Hold") "-24-" some_anchor_has_href /\
  ~ emits_exactly_when (RescuePortal.process_table_data {[ "--year-pattern" := "-2.-" ]})
      (PyStr.startswith "Hold") "-2.-" first_anchor_has_href /\
  RescuePortal.process_table_data {[ "--hold" := "(" ]} [text_cell "Hold-24-"] = None.
Proof.
  split; [reflexivity|]. split; [|split; [|reflexivity]].
  - intros H.
    destruct (H [two_anchor_cell] (text_cell "Hold-24-")) as (ls & Hpre & Hyes & _).
    vm_compute in Hpre. injection Hpre as <-.
    destruct Hyes as [l Hl].
    + split; [reflexivity|]. split; [reflexivity|].
      eexists two_anchor_cell, _, "animal?id=1". split; [reflexivity|].
      split; [right; left; reflexivity | reflexivity].
    + vm_compute in Hl. discriminate Hl.
  - intros H.
    destruct (H [anchor_cell "animal?id=1" "Buddy"] (text_cell "Hold-23-"))
      as (ls & Hpre & _ & Hno).
    vm_compute in Hpre. injection Hpre as <-.
    assert (Hl : RescuePortal.process_table_data {[ "--year-pattern" := "-2.-" ]}
                   ([anchor_cell "animal?id=1" "Buddy"] ++ [text_cell "Hold-23-"])
                 = Some []).
    { apply Hno. intros (_ & Hc & _). vm_compute in Hc. discriminate Hc. }
    vm_compute in Hl. discriminate Hl.
Qed.

(** C3, as amended.  On a double match the candidate is added exactly when
    the first anchor of the cell before has an [href] attribute; its value
    is copied as it is, empty or not.  Without anchor, or without [href] on
    the first anchor, nothing is added; the filter returns in all cases. *)
Theorem row_filter_href_presence (args : gmap string string) (rh ry : regex) :
  compile (RescuePortal.hold_str args) = Some rh ->
  compile (".*" +:+ RescuePortal.year_pattern args +:+ ".*") = Some ry ->
  href_presence_decides (RescuePortal.process_table_data args) (double_match rh ry) /\
  href_presence_decides Bin.process_table_data (double_match bin_hold bin_year).
Proof.
  intros Hh Hy. split.
  - exact (href_presence_decides_loop _ _ rh ry Hh Hy).
  - exact (href_presence_decides_loop _ _ bin_hold bin_year bin_hold_compiles bin_year_compiles).
Qed.

Lemma row_filter_href_presence_witness :
  compile (RescuePortal.hold_str ∅) = Some bin_hold /\
  compile (".*" +:+ RescuePortal.year_pattern ∅ +:+ ".*") = Some (around_regex "-24-") /\
  href_presence_decides (RescuePortal.process_table_data ∅)
    (double_match bin_hold (around_regex "-24-")) /\
  href_presence_decides Bin.process_table_data (double_match bin_hold bin_year).
Proof.
  split; [reflexivity|]. split; [reflexivity|].
  apply (row_filter_href_presence ∅ bin_hold (around_regex "-24-")); reflexivity.
Defined.

(** It fails: the empty [href] is copied into a candidate. *)
Lemma row_filter_empty_href_counterexample :
  RescuePortal.process_table_data ∅ [anchor_cell "" "Buddy123"; text_cell "Hold-24-"]
  = Some [mkLink "" "Buddy123-Hold-24-"] /\
  ~ skips_empty_href (RescuePortal.process_table_data ∅)
      (double_match bin_hold (around_regex "-24-")).
Proof.
  split; [reflexivity|]. intros H.
  specialize (H [] (anchor_cell "" "Buddy123") (text_cell "Hold-24-")
                (mkTag "a" {[ "href" := "" ]} [NavigableString "Buddy123"])
                eq_refl eq_refl eq_refl).
  vm_compute in H. discriminate H.
Qed.

(** C7.  In both scripts every iteration ends with the cell it read in the
    look-back slot, whether or not that cell matched or added a
    candidate: after any cells [pre] followed by [td] the slot holds
    [td]. *)
Theorem lookback_slides_per_cell (args : gmap string string) (rh ry : regex) :
  compile (RescuePortal.hold_str args) = Some rh ->
  compile (".*" +:+ RescuePortal.year_pattern args +:+ ".*") = Some ry ->
  window_slides (RescuePortal.hold_str args)
    (".*" +:+ RescuePortal.year_pattern args +:+ ".*") /\
  window_slides "Hold" ".*-21-.*".
Proof.
  intros Hh Hy. split.
  - exact (window_slides_loop _ _ rh ry Hh Hy).
  - exact (window_slides_loop _ _ bin_hold bin_year bin_hold_compiles bin_year_compiles).
Qed.

Lemma lookback_slides_per_cell_witness :
  compile (RescuePortal.hold_str ∅) = Some bin_hold /\
  compile (".*" +:+ RescuePortal.year_pattern ∅ +:+ ".*") = Some (around_regex "-24-") /\
  window_slides (RescuePortal.hold_str ∅)
    (".*" +:+ RescuePortal.year_pattern ∅ +:+ ".*") /\
  window_slides "Hold" ".*-21-.*".
Proof.
  split; [reflexivity|]. split; [reflexivity|].
  apply (lookback_slides_per_cell ∅ bin_hold (around_regex "-24-")); reflexivity.
Defined.

(** C8.  In both scripts the candidates come out in the order of the cells
    they come from: the result lists the candidates of strictly increasing
    positions of the input, and no position with a candidate is left
    out. *)
Theorem candidates_in_row_order (args : gmap string string) (rh ry : regex)
    (tds : list Tag) :
  compile (RescuePortal.hold_str args) = Some rh ->
  compile (".*" +:+ RescuePortal.year_pattern args +:+ ".*") = Some ry ->
  in_row_order (candidate_at rh ry tds) (RescuePortal.process_table_data args tds) /\
  in_row_order (candidate_at bin_hold bin_year tds) (Bin.process_table_data tds).
Proof.
  intros Hh Hy. split.
  - exact (in_row_order_loop _ _ rh ry tds Hh Hy).
  - exact (in_row_order_loop _ _ bin_hold bin_year tds bin_hold_compiles bin_year_compiles).
Qed.

Lemma candidates_in_row_order_witness :
  compile (RescuePortal.hold_str ∅) = Some bin_hold /\
  compile (".*" +:+ RescuePortal.year_pattern ∅ +:+ ".*") = Some (around_regex "-24-") /\
  in_row_order (candidate_at bin_hold (around_regex "-24-") two_rows)
    (RescuePortal.process_table_data ∅ two_rows) /\
  in_row_order (candidate_at bin_hold bin_year two_rows)
    (Bin.process_table_data two_rows).
Proof.
  split; [reflexivity|]. split; [reflexivity|].
  apply (candidates_in_row_order ∅ bin_hold (around_regex "-24-") two_rows); reflexivity.
Defined.

(** C9.  In both scripts the first cell adds no candidate, whatever its
    text: a one-cell input gives the empty list, and every candidate of
    any input comes from a position that is at least [1]. *)
Theorem first_cell_never_emits (args : gmap string string) (rh ry : regex) :
  compile (RescuePortal.hold_str args) = Some rh ->
  compile (".*" +:+ RescuePortal.year_pattern args +:+ ".*") = Some ry ->
  skips_first_cell (candidate_at rh ry) (RescuePortal.process_table_data args) /\
  skips_first_cell (candidate_at bin_hold bin_year) Bin.process_table_data.
Proof.
  intros Hh Hy. split.
  - exact (skips_first_cell_loop _ _ rh ry Hh Hy).
  - exact (skips_first_cell_loop _ _ bin_hold bin_year bin_hold_compiles bin_year_compiles).
Qed.

Lemma first_cell_never_emits_witness :
  compile (RescuePortal.hold_str ∅) = Some bin_hold /\
  compile (".*" +:+ RescuePortal.year_pattern ∅ +:+ ".*") = Some (around_regex "-24-") /\
  skips_first_cell (candidate_at bin_hold (around_regex "-24-"))
    (RescuePortal.process_table_data ∅) /\
  skips_first_cell (candidate_at bin_hold bin_year) Bin.process_table_data.
Proof.
  split; [reflexivity|]. split; [reflexivity|].
  apply (first_cell_never_emits ∅ bin_hold (around_regex "-24-")); reflexivity.
Defined.

End RowFilterTheorems.

(** ** Claims on the filename *)

Section Filename.
Import FilenameSpec.

Lemma replace_from_drop (old new : string) (skip : nat) (s : string) :
  PyStr.replace_from old new skip s = PyStr.replace_from old new 0 (drop skip s).
Proof.
  revert skip; induction s as [|c s IH]; intros [|k]; try reflexivity.
  simpl PyStr.replace_from at 1. simpl drop. apply IH.
Qed.

Lemma length_drop (n : nat) (s : string) :
  String.length (drop n s) = String.length s - n.
Proof.
  revert s; induction n as [|n IH]; intros [|c s]; simpl; try reflexivity; try lia.
  apply IH.
Qed.

Lemma cut_at_cons (sub : string) (c : ascii) (s : string) :
  cut_at sub (String c s) =
  if PyStr.startswith sub (String c s)
  then Some ("", drop (String.length sub) (String c s))
  else match cut_at sub s with
       | Some (before, after) => Some (String c before, after)
       | None => None
       end.
Proof. reflexivity. Qed.

Lemma replace_from_cons (old new : string) (c : ascii) (s : string) :
  PyStr.replace_from old new 0 (String c s) =
  if PyStr.startswith old (String c s)
  then new +:+ PyStr.replace_from old new (String.length old - 1) s
  else String c (PyStr.replace_from old new 0 s).
Proof. reflexivity. Qed.

Lemma cut_at_replace (c0 : ascii) (sub0 new s before after : string) :
  cut_at (String c0 sub0) s = Some (before, after) ->
  PyStr.replace_from (String c0 sub0) new 0 s =
  before +:+ new +:+ PyStr.replace_from (String c0 sub0) new 0 after.
Proof.
  revert before after. induction s as [|c s IH]; intros before after.
  - simpl. discriminate.
  - rewrite cut_at_cons, replace_from_cons.
    destruct (PyStr.startswith (String c0 sub0) (String c s)).
    + intros H; inversion H; subst; clear H. simpl. rewrite replace_from_drop.
      now rewrite Nat.sub_0_r.
    + destruct (cut_at (String c0 sub0) s) as [[b a]|]; [|discriminate].
      pose proof (IH b a eq_refl) as Hrec.
      intros H; inversion H; subst; clear H. simpl. now f_equal.
Qed.

Lemma cut_at_none_replace (c0 : ascii) (sub0 new s : string) :
  cut_at (String c0 sub0) s = None ->
  PyStr.replace_from (String c0 sub0) new 0 s = s.
Proof.
  induction s as [|c s IH]; [reflexivity|].
  rewrite cut_at_cons, replace_from_cons.
  destruct (PyStr.startswith (String c0 sub0) (String c s)); [discriminate|].
  destruct (cut_at (String c0 sub0) s) as [[b a]|]; [discriminate|].
  intros _. f_equal. now apply IH.
Qed.

Lemma cut_at_shorter (c0 : ascii) (sub0 s before after : string) :
  cut_at (String c0 sub0) s = Some (before, after) ->
  String.length after < String.length s.
Proof.
  revert before after. induction s as [|c s IH]; intros before after.
  - simpl. discriminate.
  - rewrite cut_at_cons.
    destruct (PyStr.startswith (String c0 sub0) (String c s)).
    + intros H; inversion H; subst; clear H. rewrite length_drop. simpl. lia.
    + destruct (cut_at (String c0 sub0) s) as [[b a]|]; [|discriminate].
      pose proof (IH b a eq_refl) as Hlt.
      intros H; inversion H; subst; clear H. simpl. lia.
Qed.

(** [str.replace(sub, "")] removes every occurrence of a non-empty [sub]. *)
Lemma replace_remove_every (c0 : ascii) (sub0 s : string) :
  PyStr.replace (String c0 sub0) "" s = remove_every (String c0 sub0) s.
Proof.
  unfold PyStr.replace, remove_every.
  assert (H : forall n s, String.length s <= n ->
              PyStr.replace_from (String c0 sub0) "" 0 s =
              remove_every_fuel n (String c0 sub0) s).
  { clear s. induction n as [|n IH]; intros s Hs.
    - destruct s; [reflexivity | simpl in Hs; lia].
    - simpl. destruct (cut_at (String c0 sub0) s) as [[b a]|] eqn:E.
      + rewrite (cut_at_replace _ _ _ _ _ _ E). simpl. f_equal. apply IH.
        apply cut_at_shorter in E. lia.
      + now apply cut_at_none_replace. }
  now apply H.
Qed.

Lemma replace_char_remove (c : ascii) (s : string) :
  PyStr.replace (String c "") "" s = remove_char c s.
Proof.
  unfold PyStr.replace, remove_char.
  induction s as [|x s IH]; [reflexivity|]. simpl.
  rewrite (Ascii.eqb_sym x c). destruct (Ascii.eqb c x); simpl.
  - destruct s; simpl in *; exact IH.
  - now rewrite IH.
Qed.

Lemma re_sub_class_filter (keep : ascii -> bool) (s : string) :
  re_sub_class (fun c => negb (keep c)) "" s = PyStr.filter keep s.
Proof.
  induction s as [|c s IH]; [reflexivity|]. simpl.
  destruct (keep c); simpl; now rewrite IH.
Qed.

Lemma sanitize_filter (html : string) (previous : Bs4.Tag) :
  sanitize html previous =
  PyStr.filter filename_char
    (Bs4.get_text previous +:+ "-" +:+
     PyStr.replace "Adopted" "" (PyStr.replace PyStr.nl "" html)).
Proof. unfold sanitize. apply re_sub_class_filter. Qed.

End Filename.

Section FilenameTheorems.
Import FilenameSpec Sample.

(** C2.  For every previous cell and every matched text, [sanitize] gives
    the filename that the specification derives: newlines and the
    occurrences of "Adopted" are removed from the text, the text of the
    previous cell and a hyphen are put in front, and the characters outside
    [[A-Za-z0-9-]] are removed.  For "Buddy123" and "Hold-24-\nAdopted"
    it is "Buddy123-Hold-24-". *)
Theorem sanitize_derives_filename :
  (forall (html : string) (previous : Bs4.Tag),
      sanitize html previous = derived_filename (Bs4.get_text previous) html) /\
  sanitize ("Hold-24-" +:+ PyStr.nl +:+ "Adopted") (text_cell "Buddy123")
  = "Buddy123-Hold-24-".
Proof.
  split; [|reflexivity]. intros html previous.
  rewrite sanitize_filter. unfold derived_filename, keep_filename_chars.
  unfold PyStr.nl. now rewrite replace_char_remove, replace_remove_every.
Qed.

(** It fails: the second run puts the text of the previous cell and the
    hyphen in front once more. *)
Lemma sanitize_not_idempotent :
  sanitize (sanitize "Hold" (text_cell "Buddy")) (text_cell "Buddy")
  = "Buddy-Buddy-Hold" /\
  sanitize "Hold" (text_cell "Buddy") = "Buddy-Hold" /\
  ~ sanitize_idempotent.
Proof.
  split; [reflexivity|]. split; [reflexivity|]. intros H.
  specialize (H "Hold" (text_cell "Buddy")). vm_compute in H. discriminate H.
Qed.

(** C5, as amended.  [sanitize] is a total function of the text of the
    previous cell and of the current text: its result has only characters
    of [[A-Za-z0-9-]], two previous cells with the same text give the
    same filename, and removing the characters outside [[A-Za-z0-9-]]
    from the result once more changes nothing. *)
Theorem sanitize_charset_deterministic (html : string) (previous previous' : Bs4.Tag) :
  Bs4.get_text previous' = Bs4.get_text previous ->
  PyStr.forallb filename_char (sanitize html previous) = true /\
  re_sub_class (fun c => negb (filename_char c)) "" (sanitize html previous)
  = sanitize html previous /\
  sanitize html previous' = sanitize html previous.
Proof.
  intros E. split; [|split].
  - rewrite sanitize_filter. apply PyStrFacts.filter_forallb.
  - rewrite re_sub_class_filter, sanitize_filter.
    apply PyStrFacts.filter_id, PyStrFacts.filter_forallb.
  - unfold sanitize. now rewrite E.
Qed.

Lemma sanitize_charset_deterministic_witness :
  Bs4.get_text (anchor_cell "animal?id=1" "Buddy") = Bs4.get_text (text_cell "Buddy") /\
  PyStr.forallb filename_char (sanitize "Hold-24-" (text_cell "Buddy")) = true /\
  re_sub_class (fun c => negb (filename_char c)) ""
    (sanitize "Hold-24-" (text_cell "Buddy"))
  = sanitize "Hold-24-" (text_cell "Buddy") /\
  sanitize "Hold-24-" (anchor_cell "animal?id=1" "Buddy")
  = sanitize "Hold-24-" (text_cell "Buddy").
Proof.
  split; [reflexivity|].
  apply (sanitize_charset_deterministic "Hold-24-" (text_cell "Buddy")
           (anchor_cell "animal?id=1" "Buddy")).
  reflexivity.
Defined.

End FilenameTheorems.

(** ** The two tests of a cell *)

Section PatternTheorems.
Import Re RePattern Bs4 Sample.

(** It fails for a line break in front of the keyword, in both scripts. *)
Lemma leading_line_break_counterexample :
  re_match false "Hold" (PyStr.nl +:+ "Hold-24-") = Some false /\
  ~ line_breaks_harmless (RescuePortal.hold_str ∅)
      (".*" +:+ RescuePortal.year_pattern ∅ +:+ ".*")
      (RescuePortal.hold_str ∅) (RescuePortal.year_pattern ∅) /\
  ~ line_breaks_harmless "Hold" ".*-21-.*" "Hold" "-21-".
Proof.
  split; [reflexivity|]. split.
  - intros H.
    destruct (H (PyStr.nl +:+ "Hold-24-") eq_refl eq_refl eq_refl eq_refl) as [H1 _].
    vm_compute in H1. discriminate H1.
  - intros H.
    destruct (H (PyStr.nl +:+ "Hold-21-") eq_refl eq_refl eq_refl eq_refl) as [H1 _].
    vm_compute in H1. discriminate H1.
Qed.

(** C6, as amended.  For tokens without special characters: the year test
    succeeds exactly on the texts that contain the year token, wherever
    their line breaks are (without [re.DOTALL] a line break before the
    token would make it fail); the hold test succeeds exactly on the texts
    that start with the keyword, so line breaks after the keyword do no
    harm and anything before the keyword, a line break included, makes it
    fail. *)
Theorem tests_of_plain_tokens (args : gmap string string) (text : string) :
  plain (RescuePortal.hold_str args) = true ->
  plain (RescuePortal.year_pattern args) = true ->
  (re_match false (RescuePortal.hold_str args) text
   = Some (PyStr.startswith (RescuePortal.hold_str args) text) /\
   re_match true (".*" +:+ RescuePortal.year_pattern args +:+ ".*") text
   = Some (PyStr.contains (RescuePortal.year_pattern args) text) /\
   cell_matches (RescuePortal.hold_str args)
     (".*" +:+ RescuePortal.year_pattern args +:+ ".*") text
   = Some (PyStr.startswith (RescuePortal.hold_str args) text
           && PyStr.contains (RescuePortal.year_pattern args) text)) /\
  (re_match false "Hold" text = Some (PyStr.startswith "Hold" text) /\
   re_match true ".*-21-.*" text = Some (PyStr.contains "-21-" text) /\
   cell_matches "Hold" ".*-21-.*" text
   = Some (PyStr.startswith "Hold" text && PyStr.contains "-21-" text)) /\
  re_match false ".*-24-.*" ("Hold" +:+ PyStr.nl +:+ "-24-") = Some false.
Proof.
  intros Hh Hy.
  assert (G : forall h k, plain h = true -> plain k = true ->
            re_match false h text = Some (PyStr.startswith h text) /\
            re_match true (".*" +:+ k +:+ ".*") text = Some (PyStr.contains k text) /\
            cell_matches h (".*" +:+ k +:+ ".*") text
            = Some (PyStr.startswith h text && PyStr.contains k text)).
  { intros h k Ph Pk. unfold cell_matches.
    rewrite (re_match_plain false h text Ph), (re_match_around k text Pk).
    repeat split. now destruct (PyStr.startswith h text). }
  split; [now apply G|]. split; [|reflexivity].
  exact (G "Hold" "-21-" eq_refl eq_refl).
Qed.

Lemma tests_of_plain_tokens_witness :
  plain (RescuePortal.hold_str ∅) = true /\
  plain (RescuePortal.year_pattern ∅) = true /\
  cell_matches (RescuePortal.hold_str ∅)
    (".*" +:+ RescuePortal.year_pattern ∅ +:+ ".*")
    ("Hold" +:+ PyStr.nl +:+ "-24-" +:+ PyStr.nl +:+ "Adopted")
  = Some true.
Proof.
  split; [reflexivity|]. split; [reflexivity|].
  exact (proj2 (proj2 (proj1
    (tests_of_plain_tokens ∅ ("Hold" +:+ PyStr.nl +:+ "-24-" +:+ PyStr.nl +:+ "Adopted")
       eq_refl eq_refl)))).
Defined.

Lemma hold_is_anchored_loop (h y : string) :
  plain h = true ->
  hold_is_anchored (fun tds => links <$> loop h y initial tds) h.
Proof.
  intros Ph pre td Hs. rewrite loop_app.
  destruct (loop h y initial pre) as [st|]; [|reflexivity].
  simpl. unfold loop_body, cell_matches.
  rewrite (re_match_plain false h _ Ph), Hs. reflexivity.
Qed.

(** C10.  The hold keyword and the year token are compiled as patterns.
    The hold pattern is matched at the start of the text: for a keyword
    without special characters, a cell whose text does not start with it
    adds nothing, also when the keyword comes right after a leading newline
    or space.  Special characters change what matches: [H.ld] accepts
    "Hxld-24-", which does not contain "H.ld", and [Hol?d] rejects
    "Hol?d-24-", which starts with "Hol?d"; the year token [-2.-]
    accepts "Hold-23-" and [-24?-] rejects "Hold-24?-". *)
Theorem patterns_are_regular_expressions (args : gmap string string) :
  plain (RescuePortal.hold_str args) = true ->
  hold_is_anchored (RescuePortal.process_table_data args) (RescuePortal.hold_str args) /\
  hold_is_anchored Bin.process_table_data "Hold" /\
  (let buddy := anchor_cell "animal?id=1" "Buddy" in
   let link text := Some [mkLink "animal?id=1" (sanitize text buddy)] in
   RescuePortal.process_table_data ∅ [buddy; text_cell (PyStr.nl +:+ "Hold-24-")] = Some [] /\
   RescuePortal.process_table_data ∅ [buddy; text_cell " Hold-24-"] = Some [] /\
   Bin.process_table_data [buddy; text_cell (PyStr.nl +:+ "Hold-21-")] = Some [] /\
   (PyStr.contains "H.ld" "Hxld-24-" = false /\
    RescuePortal.process_table_data {[ "--hold" := "H.ld" ]} [buddy; text_cell "Hxld-24-"]
    = link "Hxld-24-") /\
   (PyStr.startswith "Hol?d" "Hol?d-24-" = true /\
    RescuePortal.process_table_data {[ "--hold" := "Hol?d" ]} [buddy; text_cell "Hol?d-24-"]
    = Some []) /\
   (PyStr.contains "-2.-" "Hold-23-" = false /\
    RescuePortal.process_table_data {[ "--year-pattern" := "-2.-" ]}
      [buddy; text_cell "Hold-23-"]
    = link "Hold-23-") /\
   (PyStr.contains "-24?-" "Hold-24?-" = true /\
    RescuePortal.process_table_data {[ "--year-pattern" := "-24?-" ]}
      [buddy; text_cell "Hold-24?-"]
    = Some [])).
Proof.
  intros Ph. split; [|split].
  - exact (hold_is_anchored_loop _ _ Ph).
  - exact (hold_is_anchored_loop "Hold" ".*-21-.*" eq_refl).
  - vm_compute. repeat split.
Qed.

Lemma patterns_are_regular_expressions_witness :
  plain (RescuePortal.hold_str ∅) = true /\
  hold_is_anchored (RescuePortal.process_table_data ∅) (RescuePortal.hold_str ∅).
Proof.
  split; [reflexivity|].
  exact (proj1 (patterns_are_regular_expressions ∅ eq_refl)).
Defined.

End PatternTheorems.

(** ** The pagination loop *)

Section PaginationFacts.
Import Sample.

Lemma in_py_range (a b i : Z) : In i (py_range a b) <-> (a <= i < b)%Z.
Proof.
  unfold py_range. rewrite in_map_iff. split.
  - intros (k & <- & Hk). apply in_seq in Hk. lia.
  - intros Hi. exists (Z.to_nat (i - a)). split; [lia|]. apply in_seq. lia.
Qed.

Lemma fetched_app (e1 e2 : list event) : fetched (e1 ++ e2) = fetched e1 ++ fetched e2.
Proof.
  induction e1 as [|e e1 IH]; [reflexivity|].
  destruct e; simpl; now rewrite IH.
Qed.

Lemma fetched_download_links (w : World) (ls : list Link) :
  fetched (download_links w ls).1 = [].
Proof.
  induction ls as [|l ls IH]; simpl; [reflexivity|].
  destruct (download_ok w l); [|reflexivity].
  destruct (download_links w ls) as [evs ok]. exact IH.
Qed.

Lemma download_links_ok (w : World) (ls : list Link) :
  forallb (download_ok w) ls = true -> (download_links w ls).2 = true.
Proof.
  induction ls as [|l ls IH]; simpl; [reflexivity|].
  intros [Hl Hls]%andb_true_iff. rewrite Hl.
  destruct (download_links w ls) as [evs ok]. now apply IH.
Qed.

Lemma fetched_visit_page (w : World) (f : list Bs4.Tag -> option (list Link)) (i : Z) :
  fetched (visit_page w f i).1 = [i].
Proof.
  unfold visit_page. destruct (page_tds w i) as [tds|]; [|reflexivity].
  destruct (f tds) as [ls|]; [|reflexivity].
  pose proof (fetched_download_links w ls) as H.
  destruct (download_links w ls) as [evs ok]. simpl in *. now rewrite H.
Qed.

Lemma visit_page_ok (w : World) (f : list Bs4.Tag -> option (list Link)) (i : Z) :
  page_succeeds w f i -> (visit_page w f i).2 = true.
Proof.
  intros (tds & ls & Ht & Hf & Hd). unfold visit_page. rewrite Ht, Hf.
  pose proof (download_links_ok w ls Hd) as H.
  destruct (download_links w ls) as [evs ok]. exact H.
Qed.

(** A page loop that runs to its end has asked for every index, in order. *)
Lemma visit_pages_fetched (w : World) (f : list Bs4.Tag -> option (list Link))
    (indices : list Z) :
  (visit_pages w f indices).2 = true ->
  fetched (visit_pages w f indices).1 = indices.
Proof.
  induction indices as [|i rest IH]; simpl; [reflexivity|].
  pose proof (fetched_visit_page w f i) as Hi.
  destruct (visit_page w f i) as [evs [|]]; [|discriminate].
  destruct (visit_pages w f rest) as [evs' ok']. simpl in *.
  intros ->. rewrite fetched_app, Hi, IH; reflexivity.
Qed.

Lemma visit_pages_ok (w : World) (f : list Bs4.Tag -> option (list Link))
    (indices : list Z) :
  (forall i, In i indices -> page_succeeds w f i) ->
  (visit_pages w f indices).2 = true.
Proof.
  induction indices as [|i rest IH]; intros H; simpl; [reflexivity|].
  pose proof (visit_page_ok w f i (H i (or_introl eq_refl))) as Hi.
  destruct (visit_page w f i) as [evs ok]. simpl in Hi. subst ok.
  specialize (IH (fun j Hj => H j (or_intror Hj))).
  destruct (visit_pages w f rest) as [evs' ok']. exact IH.
Qed.

End PaginationFacts.

(** ** Further properties of the row filter *)

Section RowFilterExtras.
Import Re ReFacts RePattern Bs4 Sample.

Lemma length_omap_le {A B : Type} (f : A -> option B) (l : list A) :
  length (omap f l) <= length l.
Proof.
  induction l as [|x l IH]; [reflexivity|].
  change (omap f (x :: l)) with (match f x with Some y => y :: omap f l | None => omap f l end).
  destruct (f x); simpl; lia.
Qed.

Lemma at_most_one_per_pair_loop (h y : string) (rh ry : regex) :
  compile h = Some rh -> compile y = Some ry ->
  at_most_one_per_pair (fun tds => links <$> loop h y initial tds).
Proof.
  intros Hh Hy tds. rewrite (filter_rows_positions h y rh ry tds Hh Hy).
  eexists. split; [reflexivity|].
  destruct tds as [|td tds]; [reflexivity|].
  change (seq 0 (length (td :: tds))) with (0 :: seq 1 (length tds)).
  change (omap ?f (0 :: ?l)) with (match f 0 with Some y => y :: omap f l | None => omap f l end).
  rewrite candidate_at_first. pose proof (length_omap_le (candidate_at rh ry (td :: tds))
                                           (seq 1 (length tds))) as H.
  rewrite length_seq in H. simpl. lia.
Qed.

Lemma links_come_from_pairs_loop (h y : string) (rh ry : regex) :
  compile h = Some rh -> compile y = Some ry ->
  links_come_from_pairs (double_match rh ry) (fun tds => links <$> loop h y initial tds).
Proof.
  intros Hh Hy tds. rewrite (filter_rows_positions h y rh ry tds Hh Hy).
  eexists. split; [reflexivity|]. apply Forall_forall. intros l Hl.
  apply list_elem_of_omap in Hl as (i & _ & Hi).
  unfold candidate_at in Hi.
  destruct (tds !! i) as [td|] eqn:Etd; [|discriminate].
  destruct (double_match rh ry (get_text td)) eqn:Em; [|discriminate].
  destruct i as [|j]; [discriminate|]. unfold new_link in Hi.
  destruct (tds !! j) as [prev|] eqn:Eprev; [|discriminate].
  destruct (find "a" prev) as [a|] eqn:Ea; [|discriminate].
  destruct (attrs a !! "href") as [hr|] eqn:Ehr; [|discriminate].
  injection Hi as <-. exists j, prev, td, a. simpl.
  repeat split; assumption || reflexivity.
Qed.

(** The links gathered so far only ever grow at the end. *)
Lemma loop_links_shift (h y : string) (p : option Tag) (ls : list Link) (tds : list Tag) :
  loop h y (mkLoop p ls) tds =
  (fun st => mkLoop (previous st) (ls ++ links st)) <$> loop h y (mkLoop p []) tds.
Proof.
  revert p ls. induction tds as [|td tds IH]; intros p ls; simpl.
  - now rewrite app_nil_r.
  - unfold loop_body. destruct (cell_matches h y (get_text td)) as [[|]|]; simpl.
    + unfold append_link. simpl.
      destruct (new_link (get_text td) p) as [info|]; simpl.
      * rewrite (IH (Some td) (ls ++ [info])), (IH (Some td) [info]).
        destruct (loop h y (mkLoop (Some td) []) tds) as [st|]; simpl; [|reflexivity].
        now rewrite <- app_assoc.
      * apply IH.
    + apply IH.
    + reflexivity.
Qed.

Lemma splits_at_any_cell_loop (h y : string) (rh ry : regex) :
  compile h = Some rh -> compile y = Some ry ->
  splits_at_any_cell (fun tds => links <$> loop h y initial tds).
Proof.
  intros Hh Hy l1 b l2.
  destruct (loop_snoc h y rh ry Hh Hy l1 b) as (st & _ & _ & Hsnoc).
  set (out1 := if double_match rh ry (get_text b)
               then append_link (get_text b) st else links st) in Hsnoc.
  destruct (loop_total h y rh ry Hh Hy (mkLoop (Some b) []) l2) as [st2 Hst2].
  exists out1, (links st2). split; [now rewrite Hsnoc|]. split.
  - simpl. rewrite (loop_body_compiled h y rh ry Hh Hy).
    replace (if double_match rh ry (get_text b)
             then append_link (get_text b) initial else links initial)
      with (@nil Link) by now destruct (double_match rh ry (get_text b)).
    now rewrite Hst2.
  - replace (l1 ++ b :: l2) with ((l1 ++ [b]) ++ l2) by now rewrite <- app_assoc.
    rewrite loop_app, Hsnoc, loop_links_shift, Hst2. reflexivity.
Qed.

Lemma length_append (s1 s2 : string) :
  String.length (s1 +:+ s2) = String.length s1 + String.length s2.
Proof. induction s1 as [|c s1 IH]; simpl; [reflexivity | now rewrite IH]. Qed.

Lemma length_filter_le (keep : ascii -> bool) (s : string) :
  String.length (PyStr.filter keep s) <= String.length s.
Proof.
  induction s as [|c s IH]; simpl; [reflexivity|]. destruct (keep c); simpl; lia.
Qed.

Lemma cut_at_lengths (c0 : ascii) (sub0 s before after : string) :
  FilenameSpec.cut_at (String c0 sub0) s = Some (before, after) ->
  String.length before + String.length after <= String.length s.
Proof.
  revert before after. induction s as [|c s IH]; intros before after.
  - simpl. discriminate.
  - rewrite cut_at_cons.
    destruct (PyStr.startswith (String c0 sub0) (String c s)).
    + intros H; inversion H; subst; clear H. rewrite length_drop. simpl. lia.
    + destruct (FilenameSpec.cut_at (String c0 sub0) s) as [[b a]|]; [|discriminate].
      pose proof (IH b a eq_refl) as Hle.
      intros H; inversion H; subst; clear H. simpl. lia.
Qed.

Lemma length_remove_every_le (c0 : ascii) (sub0 s : string) :
  String.length (FilenameSpec.remove_every (String c0 sub0) s) <= String.length s.
Proof.
  unfold FilenameSpec.remove_every. generalize (String.length s) at 1 as n.
  intros n. revert s. induction n as [|n IH]; intros s; simpl; [reflexivity|].
  destruct (FilenameSpec.cut_at (String c0 sub0) s) as [[b a]|] eqn:E; [|reflexivity].
  rewrite length_append. pose proof (cut_at_lengths _ _ _ _ _ E). pose proof (IH a). lia.
Qed.

(** The filename is the previous text and the cleaned current text, each
    reduced to [[A-Za-z0-9-]], with a hyphen in between. *)
Lemma sanitize_shape (html : string) (previous : Tag) :
  sanitize html previous =
  PyStr.filter filename_char (get_text previous) +:+ "-" +:+
  PyStr.filter filename_char
    (PyStr.replace "Adopted" "" (PyStr.replace PyStr.nl "" html)).
Proof. rewrite sanitize_filter. now rewrite !PyStrFacts.filter_app. Qed.

Lemma forallb_not_contains (p : ascii -> bool) (c : ascii) (s : string) :
  PyStr.forallb p s = true -> p c = false -> PyStr.contains (String c "") s = false.
Proof.
  intros Hs Hc. induction s as [|x s IH]; [reflexivity|].
  simpl in Hs. apply andb_true_iff in Hs as [Hx Hs]. simpl.
  rewrite (IH Hs), andb_true_r, orb_false_r.
  destruct (Ascii.eqb c x) eqn:E; [|reflexivity].
  apply Ascii.eqb_eq in E as ->. congruence.
Qed.

Lemma sanitize_safe (html : string) (previous : Tag) :
  sanitize html previous <> "" /\
  PyStr.forallb filename_char (sanitize html previous) = true /\
  PyStr.contains "/" (sanitize html previous) = false /\
  PyStr.contains "." (sanitize html previous) = false.
Proof.
  assert (Hcls : PyStr.forallb filename_char (sanitize html previous) = true).
  { rewrite sanitize_filter. apply PyStrFacts.filter_forallb. }
  split; [|split; [exact Hcls | split; now apply (forallb_not_contains filename_char)]].
  rewrite sanitize_shape. destruct (PyStr.filter filename_char (get_text previous)); discriminate.
Qed.

Lemma sanitize_keeps_hold (rest : string) (previous : Tag) :
  PyStr.contains "-Hold" (sanitize ("Hold" +:+ rest) previous) = true.
Proof.
  rewrite sanitize_shape. apply PyStrFacts.contains_spec.
  exists (PyStr.filter filename_char (get_text previous)).
  exists (PyStr.filter filename_char
            (PyStr.replace "Adopted" "" (PyStr.replace PyStr.nl "" rest))).
  reflexivity.
Qed.

Lemma safe_filenames_loop (h y : string) (rh ry : regex) :
  compile h = Some rh -> compile y = Some ry ->
  safe_filenames (fun tds => links <$> loop h y initial tds).
Proof.
  intros Hh Hy tds.
  destruct (links_come_from_pairs_loop h y rh ry Hh Hy tds) as (out & Hout & Hall).
  exists out. split; [exact Hout|].
  eapply Forall_impl; [exact Hall|]. simpl.
  intros l (i & prev & td & a & _ & _ & _ & _ & _ & ->). apply sanitize_safe.
Qed.

Lemma keeps_hold_keyword_loop (y : string) (ry : regex) :
  compile y = Some ry ->
  keeps_hold_keyword (fun tds => links <$> loop "Hold" y initial tds).
Proof.
  intros Hy tds.
  destruct (links_come_from_pairs_loop "Hold" y bin_hold ry bin_hold_compiles Hy tds)
    as (out & Hout & Hall).
  exists out. split; [exact Hout|].
  eapply Forall_impl; [exact Hall|]. simpl.
  intros l (i & prev & td & a & _ & _ & Hm & _ & _ & ->).
  unfold double_match, bin_hold in Hm. apply andb_true_iff in Hm as [Hm _].
  rewrite match_lit in Hm. apply PyStrFacts.startswith_spec in Hm as [rest ->].
  apply sanitize_keeps_hold.
Qed.

End RowFilterExtras.

Section RowFilterExtraTheorems.
Import Re RePattern Bs4 Sample.

(** X1.  In both scripts the row filter returns at most one link for each
    pair of neighbouring cells: for [n] cells at most [n - 1] links, and
    none for at most one cell. *)
Theorem row_filter_length_bound (args : gmap string string) (rh ry : regex) :
  compile (RescuePortal.hold_str args) = Some rh ->
  compile (".*" +:+ RescuePortal.year_pattern args +:+ ".*") = Some ry ->
  at_most_one_per_pair (RescuePortal.process_table_data args) /\
  at_most_one_per_pair Bin.process_table_data.
Proof.
  intros Hh Hy. split.
  - exact (at_most_one_per_pair_loop _ _ rh ry Hh Hy).
  - exact (at_most_one_per_pair_loop _ _ bin_hold bin_year
             bin_hold_compiles bin_year_compiles).
Qed.

Lemma row_filter_length_bound_witness :
  compile (RescuePortal.hold_str ∅) = Some bin_hold /\
  compile (".*" +:+ RescuePortal.year_pattern ∅ +:+ ".*") = Some (around_regex "-24-") /\
  at_most_one_per_pair (RescuePortal.process_table_data ∅) /\
  at_most_one_per_pair Bin.process_table_data.
Proof.
  split; [reflexivity|]. split; [reflexivity|].
  apply (row_filter_length_bound ∅ bin_hold (around_regex "-24-")); reflexivity.
Defined.

(** X2.  In both scripts every link of the result is made of two
    neighbouring cells of the input: the text of the second passes both
    tests, the [href] is the value of the [href] attribute of the first
    anchor of the first, and the filename is [sanitize] of the text of the
    second and of the first. *)
Theorem row_filter_links_content (args : gmap string string) (rh ry : regex) :
  compile (RescuePortal.hold_str args) = Some rh ->
  compile (".*" +:+ RescuePortal.year_pattern args +:+ ".*") = Some ry ->
  links_come_from_pairs (double_match rh ry) (RescuePortal.process_table_data args) /\
  links_come_from_pairs (double_match bin_hold bin_year) Bin.process_table_data.
Proof.
  intros Hh Hy. split.
  - exact (links_come_from_pairs_loop _ _ rh ry Hh Hy).
  - exact (links_come_from_pairs_loop _ _ bin_hold bin_year
             bin_hold_compiles bin_year_compiles).
Qed.

Lemma row_filter_links_content_witness :
  compile (RescuePortal.hold_str ∅) = Some bin_hold /\
  compile (".*" +:+ RescuePortal.year_pattern ∅ +:+ ".*") = Some (around_regex "-24-") /\
  links_come_from_pairs (double_match bin_hold (around_regex "-24-"))
    (RescuePortal.process_table_data ∅) /\
  links_come_from_pairs (double_match bin_hold bin_year) Bin.process_table_data.
Proof.
  split; [reflexivity|]. split; [reflexivity|].
  apply (row_filter_links_content ∅ bin_hold (around_regex "-24-")); reflexivity.
Defined.

(** X3.  In both scripts the cells can be cut at any cell [b]: the result
    for the whole list is the result for the cells up to and with [b]
    followed by the result for the cells from [b] on, because the loop
    looks back one cell only. *)
Theorem row_filter_splits (args : gmap string string) (rh ry : regex) :
  compile (RescuePortal.hold_str args) = Some rh ->
  compile (".*" +:+ RescuePortal.year_pattern args +:+ ".*") = Some ry ->
  splits_at_any_cell (RescuePortal.process_table_data args) /\
  splits_at_any_cell Bin.process_table_data.
Proof.
  intros Hh Hy. split.
  - exact (splits_at_any_cell_loop _ _ rh ry Hh Hy).
  - exact (splits_at_any_cell_loop _ _ bin_hold bin_year
             bin_hold_compiles bin_year_compiles).
Qed.

Lemma row_filter_splits_witness :
  compile (RescuePortal.hold_str ∅) = Some bin_hold /\
  compile (".*" +:+ RescuePortal.year_pattern ∅ +:+ ".*") = Some (around_regex "-24-") /\
  splits_at_any_cell (RescuePortal.process_table_data ∅) /\
  splits_at_any_cell Bin.process_table_data.
Proof.
  split; [reflexivity|]. split; [reflexivity|].
  apply (row_filter_splits ∅ bin_hold (around_regex "-24-")); reflexivity.
Defined.

(** X4.  In both scripts every filename of the result is fit for
    [pages/<filename>.jpg]: it is not empty, since the hyphen between the
    two texts is always kept, it has only characters of
    [[A-Za-z0-9-]], and so neither a slash nor a dot. *)
Theorem row_filter_filenames_safe (args : gmap string string) (rh ry : regex) :
  compile (RescuePortal.hold_str args) = Some rh ->
  compile (".*" +:+ RescuePortal.year_pattern args +:+ ".*") = Some ry ->
  safe_filenames (RescuePortal.process_table_data args) /\
  safe_filenames Bin.process_table_data.
Proof.
  intros Hh Hy. split.
  - exact (safe_filenames_loop _ _ rh ry Hh Hy).
  - exact (safe_filenames_loop _ _ bin_hold bin_year
             bin_hold_compiles bin_year_compiles).
Qed.

Lemma row_filter_filenames_safe_witness :
  compile (RescuePortal.hold_str ∅) = Some bin_hold /\
  compile (".*" +:+ RescuePortal.year_pattern ∅ +:+ ".*") = Some (around_regex "-24-") /\
  safe_filenames (RescuePortal.process_table_data ∅) /\
  safe_filenames Bin.process_table_data.
Proof.
  split; [reflexivity|]. split; [reflexivity|].
  apply (row_filter_filenames_safe ∅ bin_hold (around_regex "-24-")); reflexivity.
Defined.

(** X5.  The filename has three parts.  The first is the text of the
    previous cell reduced to [[A-Za-z0-9-]], the second is one hyphen, and
    the third is the current text without its line breaks and without its
    occurrences of "Adopted", reduced to [[A-Za-z0-9-]] in its turn: the
    class is applied to the two texts apart, and the hyphen between them
    is always kept.  The third part is no longer than the current text,
    and the name no longer than the two texts and the hyphen together. *)
Theorem sanitize_prefix_and_length (html : string) (previous : Tag) :
  sanitize html previous =
  FilenameSpec.keep_filename_chars (get_text previous) +:+ "-" +:+
  FilenameSpec.keep_filename_chars
    (FilenameSpec.remove_every "Adopted"
       (FilenameSpec.remove_char PyStr.newline html)) /\
  String.length
    (FilenameSpec.keep_filename_chars
       (FilenameSpec.remove_every "Adopted"
          (FilenameSpec.remove_char PyStr.newline html)))
  <= String.length html /\
  String.length (sanitize html previous)
  <= String.length (get_text previous) + 1 + String.length html.
Proof.
  assert (Hshape : sanitize html previous =
                   FilenameSpec.keep_filename_chars (get_text previous) +:+ "-" +:+
                   FilenameSpec.keep_filename_chars
                     (FilenameSpec.remove_every "Adopted"
                        (FilenameSpec.remove_char PyStr.newline html))).
  { rewrite sanitize_shape. unfold PyStr.nl.
    now rewrite replace_char_remove, replace_remove_every. }
  assert (Hkept : String.length
                    (FilenameSpec.keep_filename_chars
                       (FilenameSpec.remove_every "Adopted"
                          (FilenameSpec.remove_char PyStr.newline html)))
                  <= String.length html).
  { unfold FilenameSpec.keep_filename_chars, FilenameSpec.remove_char.
    etransitivity; [apply length_filter_le|].
    etransitivity; [apply length_remove_every_le|]. apply length_filter_le. }
  split; [exact Hshape|]. split; [exact Hkept|].
  rewrite Hshape, !length_append. change (String.length "-") with 1.
  pose proof (length_filter_le filename_char (get_text previous)) as Hprev.
  unfold FilenameSpec.keep_filename_chars at 1. lia.
Qed.

(** X6.  Where the hold keyword is "Hold", which is always so in the free
    functions and is the default of the class, every filename of the
    result contains "-Hold": the keyword at the start of the matched text
    is kept after the hyphen. *)
Theorem row_filter_keeps_hold_keyword (args : gmap string string) (ry : regex) :
  RescuePortal.hold_str args = "Hold" ->
  compile (".*" +:+ RescuePortal.year_pattern args +:+ ".*") = Some ry ->
  keeps_hold_keyword (RescuePortal.process_table_data args) /\
  keeps_hold_keyword Bin.process_table_data.
Proof.
  intros Hh Hy. split.
  - unfold RescuePortal.process_table_data. rewrite Hh.
    exact (keeps_hold_keyword_loop _ ry Hy).
  - exact (keeps_hold_keyword_loop _ bin_year bin_year_compiles).
Qed.

Lemma row_filter_keeps_hold_keyword_witness :
  RescuePortal.hold_str ∅ = "Hold" /\
  compile (".*" +:+ RescuePortal.year_pattern ∅ +:+ ".*") = Some (around_regex "-24-") /\
  keeps_hold_keyword (RescuePortal.process_table_data ∅) /\
  keeps_hold_keyword Bin.process_table_data.
Proof.
  split; [reflexivity|]. split; [reflexivity|].
  apply (row_filter_keeps_hold_keyword ∅ (around_regex "-24-")); reflexivity.
Defined.

End RowFilterExtraTheorems.

(** ** Further properties of the pagination loop *)

Section PaginationExtras.
Import Sample.

Lemma py_range_nil (a b : Z) : (b <= a)%Z -> py_range a b = [].
Proof. intros H. unfold py_range. now replace (Z.to_nat (b - a)) with 0 by lia. Qed.

Lemma py_range_split (a b c : Z) :
  (a <= b <= c)%Z -> py_range a c = py_range a b ++ py_range b c.
Proof.
  intros H. unfold py_range.
  replace (Z.to_nat (c - a)) with (Z.to_nat (b - a) + Z.to_nat (c - b)) by lia.
  rewrite seq_app, map_app. f_equal.
  assert (E : seq (0 + Z.to_nat (b - a)) (Z.to_nat (c - b))
              = map (Nat.add (Z.to_nat (b - a))) (seq 0 (Z.to_nat (c - b)))).
  { change (map ?g ?l) with (g <$> l). rewrite fmap_add_seq. f_equal. lia. }
  rewrite E, map_map. apply map_ext. intros k. lia.
Qed.

Lemma py_range_single (j : Z) : py_range j (j + 1) = [j].
Proof.
  unfold py_range. replace (Z.to_nat (j + 1 - j)) with 1 by lia. simpl. f_equal. lia.
Qed.

Lemma visit_pages_app (w : World) (f : list Bs4.Tag -> option (list Link))
    (l1 l2 : list Z) :
  visit_pages w f (l1 ++ l2) =
  if (visit_pages w f l1).2
  then ((visit_pages w f l1).1 ++ (visit_pages w f l2).1, (visit_pages w f l2).2)
  else visit_pages w f l1.
Proof.
  induction l1 as [|i l1 IH]; simpl.
  - now destruct (visit_pages w f l2).
  - destruct (visit_page w f i) as [evs [|]]; [|reflexivity].
    rewrite IH. destruct (visit_pages w f l1) as [e1 [|]]; simpl; [|reflexivity].
    destruct (visit_pages w f l2) as [e2 ok2]. simpl. now rewrite app_assoc.
Qed.

Lemma visit_pages_ext (w : World) (f g : list Bs4.Tag -> option (list Link))
    (l : list Z) :
  (forall tds, f tds = g tds) -> visit_pages w f l = visit_pages w g l.
Proof.
  intros E. induction l as [|i l IH]; simpl; [reflexivity|].
  unfold visit_page. destruct (page_tds w i) as [tds|]; [|reflexivity].
  now rewrite E, IH.
Qed.

Lemma visit_pages_fetched_prefix (w : World) (f : list Bs4.Tag -> option (list Link))
    (l : list Z) :
  fetched (visit_pages w f l).1 `prefix_of` l.
Proof.
  induction l as [|i l IH]; simpl; [apply prefix_nil|].
  pose proof (fetched_visit_page w f i) as Hi.
  destruct (visit_page w f i) as [evs [|]]; simpl in *.
  - destruct (visit_pages w f l) as [evs' ok']. simpl in *.
    rewrite fetched_app, Hi. now apply prefix_cons.
  - rewrite Hi. apply prefix_cons, prefix_nil.
Qed.

Lemma download_links_no_quit (w : World) (ls : list Link) :
  ~ In EvQuit (download_links w ls).1.
Proof.
  induction ls as [|l ls IH]; simpl; [tauto|].
  destruct (download_ok w l).
  - destruct (download_links w ls) as [evs ok]. simpl in *.
    intros [H|H]; [discriminate | tauto].
  - simpl. intros [H|H]; [discriminate | tauto].
Qed.

Lemma visit_pages_no_quit (w : World) (f : list Bs4.Tag -> option (list Link))
    (l : list Z) :
  ~ In EvQuit (visit_pages w f l).1.
Proof.
  induction l as [|i l IH]; simpl; [tauto|].
  assert (Hi : ~ In EvQuit (visit_page w f i).1).
  { unfold visit_page. destruct (page_tds w i) as [tds|]; simpl.
    - destruct (f tds) as [ls|]; simpl.
      + pose proof (download_links_no_quit w ls) as H.
        destruct (download_links w ls) as [evs ok]. simpl in *.
        intros [E|E]; [discriminate | tauto].
      + intros [E|E]; [discriminate | tauto].
    - intros [E|E]; [discriminate | tauto]. }
  destruct (visit_page w f i) as [evs [|]]; simpl in *; [|exact Hi].
  destruct (visit_pages w f l) as [evs' ok']. simpl in *.
  rewrite in_app_iff. tauto.
Qed.

Lemma paginate_quits_iff_returns (w : World) (f : list Bs4.Tag -> option (list Link))
    (args : gmap string string) (end_page : Z) :
  quits_iff_returns (paginate w f args end_page).
Proof.
  unfold quits_iff_returns, paginate, paginate_from.
  assert (Hs : ~ In EvQuit [EvSession]) by (simpl; intros [E|E]; [discriminate | tauto]).
  destruct (session_ok w); [|right; now split].
  destruct (start_page args) as [first|]; [|right; now split].
  pose proof (visit_pages_no_quit w f (py_range first end_page)) as Hn.
  destruct (visit_pages w f (py_range first end_page)) as [evs [|]]; simpl in *.
  - left. split; [reflexivity|]. exists (EvSession :: evs). split; [reflexivity|].
    simpl. intros [E|E]; [discriminate | tauto].
  - right. split; [reflexivity|]. simpl. intros [E|E]; [discriminate | tauto].
Qed.

Lemma paginate_fetched_prefix (w : World) (f : list Bs4.Tag -> option (list Link))
    (args : gmap string string) (end_page : Z) :
  match start_page args with
  | Some first => fetched (paginate w f args end_page).1 `prefix_of` py_range first end_page
  | None => fetched (paginate w f args end_page).1 = []
  end.
Proof.
  unfold paginate, paginate_from. destruct (start_page args) as [first|].
  - destruct (session_ok w); [|apply prefix_nil].
    pose proof (visit_pages_fetched_prefix w f (py_range first end_page)) as H.
    destruct (visit_pages w f (py_range first end_page)) as [evs [|]]; simpl in *.
    + now rewrite fetched_app, app_nil_r.
    + exact H.
  - now destruct (session_ok w).
Qed.

Lemma download_links_all_ok (w : World) (ls : list Link) :
  forallb (download_ok w) ls = true ->
  download_links w ls = (map EvDownload ls, true).
Proof.
  induction ls as [|l ls IH]; simpl; [reflexivity|].
  intros [Hl Hls]%andb_true_iff. now rewrite Hl, (IH Hls).
Qed.

Lemma download_links_ok_inv (w : World) (ls : list Link) :
  (download_links w ls).2 = true -> forallb (download_ok w) ls = true.
Proof.
  induction ls as [|l ls IH]; simpl; [reflexivity|].
  destruct (download_ok w l); [|discriminate].
  destruct (download_links w ls) as [evs ok]. simpl in *. exact IH.
Qed.

Lemma visit_page_trace (w : World) (f : list Bs4.Tag -> option (list Link)) (i : Z) :
  page_succeeds w f i -> visit_page w f i = (page_trace w f i, true).
Proof.
  intros (tds & ls & Ht & Hf & Hd). unfold visit_page, page_trace, page_links.
  rewrite Ht. simpl. rewrite Hf. simpl. now rewrite (download_links_all_ok w ls Hd).
Qed.

Lemma visit_page_fails (w : World) (f : list Bs4.Tag -> option (list Link)) (i : Z) :
  ~ page_succeeds w f i -> (visit_page w f i).2 = false.
Proof.
  intros Hn. destruct (visit_page w f i).2 eqn:E; [|reflexivity].
  exfalso. apply Hn. unfold visit_page in E. unfold page_succeeds.
  destruct (page_tds w i) as [tds|]; [|discriminate].
  destruct (f tds) as [ls|] eqn:Ef; [|discriminate].
  exists tds, ls. repeat split; try assumption.
  apply download_links_ok_inv. now destruct (download_links w ls).
Qed.

Lemma visit_pages_trace (w : World) (f : list Bs4.Tag -> option (list Link))
    (l : list Z) :
  (forall i, In i l -> page_succeeds w f i) ->
  visit_pages w f l = (flat_map (page_trace w f) l, true).
Proof.
  induction l as [|i l IH]; intros H; simpl; [reflexivity|].
  rewrite (visit_page_trace w f i (H i (or_introl eq_refl))).
  now rewrite (IH (fun j Hj => H j (or_intror Hj))).
Qed.

(** A run whose pages all go through: the events, page after page. *)
Lemma paginate_trace (w : World) (f : list Bs4.Tag -> option (list Link))
    (args : gmap string string) (first end_page : Z) :
  session_ok w = true -> start_page args = Some first ->
  (forall i, (first <= i < end_page)%Z -> page_succeeds w f i) ->
  paginate w f args end_page =
  (EvSession :: flat_map (page_trace w f) (py_range first end_page) ++ [EvQuit],
   Returned 0).
Proof.
  intros Hs Hf Hall. unfold paginate, paginate_from. rewrite Hs, Hf.
  rewrite visit_pages_trace; [reflexivity|].
  intros i Hi. apply Hall. now apply in_py_range.
Qed.

(** A run of the class from page 5 on a portal with one matching row, on
    page 7: the row is downloaded between the requests of the pages 7
    and 8. *)
Example run_with_one_download :
  RescuePortal.run quiet_world {[ "--start-page" := "5" ]} =
  ([EvSession; EvListPage 5; EvListPage 6; EvListPage 7;
    EvDownload (mkLink "animal?id=1" "Buddy-Hold-24-")]
   ++ map EvListPage (py_range 8 45) ++ [EvQuit],
   Returned 0).
Proof.
  unfold RescuePortal.run.
  rewrite (paginate_trace quiet_world _ {[ "--start-page" := "5" ]} 5 RescuePortal.end_page);
    [reflexivity | reflexivity | reflexivity |].
  intros i _. unfold page_succeeds. simpl.
  destruct (i =? 7)%Z; eexists; eexists; (split; [reflexivity|]; split; reflexivity).
Qed.

(** A run stops at the first page that does not go through. *)
Lemma paginate_stops (w : World) (f : list Bs4.Tag -> option (list Link))
    (args : gmap string string) (first end_page j : Z) :
  session_ok w = true -> start_page args = Some first ->
  (first <= j < end_page)%Z ->
  (forall i, (first <= i < j)%Z -> page_succeeds w f i) ->
  ~ page_succeeds w f j ->
  (paginate w f args end_page).2 = Raised /\
  fetched (paginate w f args end_page).1 = py_range first (j + 1).
Proof.
  intros Hs Hf Hj Hbefore Hfail. unfold paginate, paginate_from. rewrite Hs, Hf.
  rewrite (py_range_split first j end_page) by lia.
  rewrite (py_range_split j (j + 1) end_page), py_range_single by lia.
  rewrite (py_range_split first j (j + 1)), py_range_single by lia.
  rewrite visit_pages_app.
  rewrite (visit_pages_trace w f (py_range first j))
    by (intros i Hi; apply Hbefore; now apply in_py_range).
  pose proof (visit_pages_fetched w f (py_range first j)) as Hfetch.
  rewrite (visit_pages_trace w f (py_range first j)) in Hfetch
    by (intros i Hi; apply Hbefore; now apply in_py_range).
  simpl in Hfetch. specialize (Hfetch eq_refl). simpl.
  pose proof (visit_page_fails w f j Hfail) as Hj2.
  pose proof (fetched_visit_page w f j) as Hj1.
  destruct (visit_page w f j) as [evs ok]. simpl in *. subst ok. simpl.
  split; [reflexivity|]. now rewrite fetched_app, Hfetch, Hj1.
Qed.

(** With the same row filter, the run to the smaller bound is the start of
    the run to the larger one. *)
Lemma paginate_bounds (w : World) (f : list Bs4.Tag -> option (list Link))
    (args : gmap string string) (e1 e2 : Z) :
  (e1 <= e2)%Z ->
  fetched (paginate w f args e1).1 `prefix_of` fetched (paginate w f args e2).1 /\
  ((paginate w f args e1).2 = Raised -> paginate w f args e2 = paginate w f args e1).
Proof.
  intros He. unfold paginate, paginate_from.
  destruct (session_ok w); [|split; [reflexivity | reflexivity]].
  destruct (start_page args) as [first|]; [|split; reflexivity].
  destruct (Z_le_gt_dec first e1) as [Hle|Hgt].
  - rewrite (py_range_split first e1 e2) by lia. rewrite visit_pages_app.
    destruct (visit_pages w f (py_range first e1)) as [ev1 [|]]; simpl.
    + split; [|discriminate].
      destruct (visit_pages w f (py_range e1 e2)) as [ev2 [|]]; simpl;
        rewrite !fetched_app; simpl; rewrite ?app_nil_r, ?fetched_app;
        rewrite <- ?app_assoc; now apply prefix_app_r.
    + split; reflexivity.
  - rewrite (py_range_nil first e1) by lia. simpl. split; [|discriminate].
    apply prefix_nil.
Qed.

(** Where the row filter always returns, a page that does not go through
    is one that breaks. *)
Lemma page_breaks_of_total (w : World) (f : list Bs4.Tag -> option (list Link)) (i : Z) :
  (forall tds, exists ls, f tds = Some ls) ->
  ~ page_succeeds w f i -> page_breaks w f i.
Proof.
  intros Htotal Hfail. unfold page_breaks.
  destruct (page_tds w i) as [tds|] eqn:Ht; [|now left]. right.
  destruct (Htotal tds) as [ls Hls]. exists tds, ls. split; [reflexivity|].
  split; [exact Hls|].
  destruct (forallb (download_ok w) ls) eqn:Hd; [|reflexivity].
  exfalso. apply Hfail. now exists tds, ls.
Qed.

End PaginationExtras.

Section PaginationExtraTheorems.
Import Sample.

Lemma paginate_ext (w : World) (f g : list Bs4.Tag -> option (list Link))
    (args : gmap string string) (end_page : Z) :
  (forall tds, f tds = g tds) -> paginate w f args end_page = paginate w g args end_page.
Proof.
  intros E. unfold paginate, paginate_from. destruct (session_ok w); [|reflexivity].
  destruct (start_page args) as [first|]; [|reflexivity].
  now rewrite (visit_pages_ext w f g _ E).
Qed.

(** X7.  In both scripts, whatever the portal answers, the pages asked for
    are a start of [range(start_page, end_page)]: never a page outside the
    range, never a page twice or out of order, never a page skipped; and
    no page at all when the value of [--start-page], written in ASCII, is
    not a number. *)
Theorem fetched_is_prefix_of_range (w : World) (args : gmap string string) :
  (forall first : Z,
      start_page args = Some first ->
      fetched (RescuePortal.run w args).1
        `prefix_of` py_range first RescuePortal.end_page /\
      fetched (Bin.main w args).1 `prefix_of` py_range first Bin.end_page) /\
  (forall s : string,
      args !! "--start-page" = Some s ->
      PyStr.isascii s = true ->
      PyInt.int s = None ->
      fetched (RescuePortal.run w args).1 = [] /\ fetched (Bin.main w args).1 = []).
Proof.
  pose proof (paginate_fetched_prefix w (RescuePortal.process_table_data args) args
                RescuePortal.end_page) as H1.
  pose proof (paginate_fetched_prefix w Bin.process_table_data args Bin.end_page) as H2.
  split.
  - intros first Hf. rewrite Hf in H1, H2. now split.
  - intros s Hs _ Hint.
    assert (Hf : start_page args = None) by (unfold start_page; now rewrite Hs).
    rewrite Hf in H1, H2. now split.
Qed.

Lemma fetched_is_prefix_of_range_witness :
  start_page {[ "--start-page" := "2" ]} = Some 2%Z /\
  fetched (RescuePortal.run broken_world {[ "--start-page" := "2" ]}).1
    `prefix_of` py_range 2 RescuePortal.end_page /\
  ({[ "--start-page" := "five" ]} : gmap string string) !! "--start-page" = Some "five" /\
  PyStr.isascii "five" = true /\
  PyInt.int "five" = None /\
  fetched (Bin.main quiet_world {[ "--start-page" := "five" ]}).1 = [].
Proof.
  assert (Hfirst : start_page {[ "--start-page" := "2" ]} = Some 2%Z) by reflexivity.
  assert (Hs : ({[ "--start-page" := "five" ]} : gmap string string) !! "--start-page"
               = Some "five") by reflexivity.
  split; [exact Hfirst|]. split.
  - exact (proj1 (proj1 (fetched_is_prefix_of_range broken_world
                           {[ "--start-page" := "2" ]}) 2%Z Hfirst)).
  - split; [exact Hs|]. split; [reflexivity|]. split; [reflexivity|].
    exact (proj2 (proj2 (fetched_is_prefix_of_range quiet_world
                           {[ "--start-page" := "five" ]}) "five" Hs eq_refl eq_refl)).
Defined.

(** X8.  In both scripts a run ends in one of two ways: it returns [0] and
    [browser.quit()] is its last step, or it raises and [browser.quit()]
    is never called. *)
Theorem browser_quit_iff_returned (w : World) (args : gmap string string) :
  quits_iff_returns (RescuePortal.run w args) /\ quits_iff_returns (Bin.main w args).
Proof. split; apply paginate_quits_iff_returns. Qed.

(** X9.  A start page at or beyond the bound is no error: after login and
    search the loop body never runs, no page is asked for, the browser is
    quit and the run returns [0]. *)
Theorem start_beyond_bound_returns_at_once (w : World) (args : gmap string string)
    (first : Z) :
  session_ok w = true ->
  start_page args = Some first ->
  ((RescuePortal.end_page <= first)%Z ->
   RescuePortal.run w args = ([EvSession; EvQuit], Returned 0)) /\
  ((Bin.end_page <= first)%Z ->
   Bin.main w args = ([EvSession; EvQuit], Returned 0)).
Proof.
  intros Hs Hf.
  split; intros H; unfold RescuePortal.run, Bin.main, paginate, paginate_from;
    rewrite Hs, Hf, py_range_nil by exact H; reflexivity.
Qed.

Lemma start_beyond_bound_returns_at_once_witness :
  session_ok quiet_world = true /\
  start_page {[ "--start-page" := "200" ]} = Some 200%Z /\
  RescuePortal.run quiet_world {[ "--start-page" := "200" ]}
  = ([EvSession; EvQuit], Returned 0) /\
  Bin.main quiet_world {[ "--start-page" := "200" ]}
  = ([EvSession; EvQuit], Returned 0).
Proof.
  split; [reflexivity|]. split; [reflexivity|].
  assert (Hfirst : start_page {[ "--start-page" := "200" ]} = Some 200%Z) by reflexivity.
  pose proof (start_beyond_bound_returns_at_once quiet_world
                {[ "--start-page" := "200" ]} 200 eq_refl Hfirst) as [H1 H2].
  split; [apply H1 | apply H2]; unfold RescuePortal.end_page, Bin.end_page; lia.
Defined.

(** X10.  When every page of the range goes through, the events of a run
    are: login and search; then for each index of the range in order the
    request of the page followed by the downloads of the links the row
    filter found on it, in the order of the links and all before the next
    page is asked for; then [browser.quit()]. *)
Theorem successful_run_trace (w : World) (args : gmap string string) (first : Z) :
  session_ok w = true ->
  start_page args = Some first ->
  ((forall i, (first <= i < RescuePortal.end_page)%Z ->
              page_succeeds w (RescuePortal.process_table_data args) i) ->
   RescuePortal.run w args =
   (EvSession ::
      flat_map (page_trace w (RescuePortal.process_table_data args))
               (py_range first RescuePortal.end_page) ++ [EvQuit],
    Returned 0)) /\
  ((forall i, (first <= i < Bin.end_page)%Z ->
              page_succeeds w Bin.process_table_data i) ->
   Bin.main w args =
   (EvSession ::
      flat_map (page_trace w Bin.process_table_data)
               (py_range first Bin.end_page) ++ [EvQuit],
    Returned 0)).
Proof.
  intros Hs Hf. split; intros Hall; now apply paginate_trace.
Qed.

Lemma successful_run_trace_witness :
  session_ok quiet_world = true /\
  start_page {[ "--start-page" := "43" ]} = Some 43%Z /\
  RescuePortal.run quiet_world {[ "--start-page" := "43" ]}
  = ([EvSession; EvListPage 43; EvListPage 44; EvQuit], Returned 0).
Proof.
  split; [reflexivity|]. split; [reflexivity|].
  assert (Hfirst : start_page {[ "--start-page" := "43" ]} = Some 43%Z) by reflexivity.
  rewrite (proj1 (successful_run_trace quiet_world {[ "--start-page" := "43" ]} 43
                    eq_refl Hfirst)); [reflexivity|].
  intros i Hi. unfold page_succeeds. simpl.
  destruct (i =? 7)%Z; eexists; eexists; (split; [reflexivity|]; split; reflexivity).
Defined.

(** X11.  There is no retry and no skipping.  With patterns that compile
    the row filter returns for every page, so a page that does not go
    through is one whose loading or one of whose downloads raises; when
    the pages before index [j] go through and the page [j] does not, the
    run raises, and the pages asked for are exactly those from the start
    page to [j]. *)
Theorem first_failure_stops_run (w : World) (args : gmap string string)
    (rh ry : Re.regex) (first j : Z) :
  session_ok w = true ->
  start_page args = Some first ->
  RePattern.compile (RescuePortal.hold_str args) = Some rh ->
  RePattern.compile (".*" +:+ RescuePortal.year_pattern args +:+ ".*") = Some ry ->
  ((first <= j < RescuePortal.end_page)%Z ->
   (forall i, (first <= i < j)%Z ->
              page_succeeds w (RescuePortal.process_table_data args) i) ->
   ~ page_succeeds w (RescuePortal.process_table_data args) j ->
   page_breaks w (RescuePortal.process_table_data args) j /\
   (RescuePortal.run w args).2 = Raised /\
   fetched (RescuePortal.run w args).1 = py_range first (j + 1)) /\
  ((first <= j < Bin.end_page)%Z ->
   (forall i, (first <= i < j)%Z -> page_succeeds w Bin.process_table_data i) ->
   ~ page_succeeds w Bin.process_table_data j ->
   page_breaks w Bin.process_table_data j /\
   (Bin.main w args).2 = Raised /\
   fetched (Bin.main w args).1 = py_range first (j + 1)).
Proof.
  intros Hs Hf Hh Hy. split; intros Hj Hbefore Hfail.
  - split; [|now apply paginate_stops].
    apply page_breaks_of_total; [|exact Hfail]. intros tds.
    unfold RescuePortal.process_table_data.
    destruct (loop_total _ _ rh ry Hh Hy initial tds) as [st ->]. now exists (links st).
  - split; [|now apply paginate_stops].
    apply page_breaks_of_total; [|exact Hfail]. intros tds.
    unfold Bin.process_table_data.
    destruct (loop_total _ _ bin_hold bin_year bin_hold_compiles bin_year_compiles
                initial tds) as [st ->].
    now exists (links st).
Qed.

Lemma first_failure_stops_run_witness :
  session_ok broken_world = true /\
  start_page {[ "--start-page" := "1" ]} = Some 1%Z /\
  RePattern.compile (RescuePortal.hold_str {[ "--start-page" := "1" ]}) = Some bin_hold /\
  RePattern.compile (".*" +:+ RescuePortal.year_pattern {[ "--start-page" := "1" ]} +:+ ".*")
  = Some (around_regex "-24-") /\
  (RescuePortal.run broken_world {[ "--start-page" := "1" ]}).2 = Raised /\
  fetched (RescuePortal.run broken_world {[ "--start-page" := "1" ]}).1 = [1; 2; 3]%Z.
Proof.
  assert (Hfirst : start_page {[ "--start-page" := "1" ]} = Some 1%Z) by reflexivity.
  assert (Hh : RePattern.compile (RescuePortal.hold_str {[ "--start-page" := "1" ]})
               = Some bin_hold) by reflexivity.
  assert (Hy : RePattern.compile
                 (".*" +:+ RescuePortal.year_pattern {[ "--start-page" := "1" ]} +:+ ".*")
               = Some (around_regex "-24-")) by reflexivity.
  split; [reflexivity|]. split; [exact Hfirst|]. split; [exact Hh|]. split; [exact Hy|].
  apply (proj1 (first_failure_stops_run broken_world {[ "--start-page" := "1" ]}
                  bin_hold (around_regex "-24-") 1 3 eq_refl Hfirst Hh Hy)).
  - unfold RescuePortal.end_page. lia.
  - intros i Hi. unfold page_succeeds. simpl.
    destruct (i =? 3)%Z eqn:E; [lia|].
    eexists; eexists; (split; [reflexivity|]; split; reflexivity).
  - intros (tds & ls & Ht & _). discriminate Ht.
Defined.

(** X12.  The class is the free functions with two settings changed.  With
    the hold keyword "Hold" and [--year-pattern] "-21-" its row filter
    returns what the free function returns on every input, and its run is
    the start of the run of the free functions on the same portal: the
    pages it asks for are the first of those, and when it raises, the free
    functions raise after the same events. *)
Theorem class_refactors_free_functions (w : World) (args : gmap string string) :
  RescuePortal.hold_str args = "Hold" ->
  RescuePortal.year_pattern args = "-21-" ->
  (forall tds, RescuePortal.process_table_data args tds = Bin.process_table_data tds) /\
  fetched (RescuePortal.run w args).1 `prefix_of` fetched (Bin.main w args).1 /\
  ((RescuePortal.run w args).2 = Raised -> Bin.main w args = RescuePortal.run w args).
Proof.
  intros Hh Hy.
  assert (E : forall tds,
             RescuePortal.process_table_data args tds = Bin.process_table_data tds).
  { intros tds. unfold RescuePortal.process_table_data. now rewrite Hh, Hy. }
  split; [exact E|].
  unfold RescuePortal.run, Bin.main.
  rewrite (paginate_ext w _ _ args RescuePortal.end_page E).
  apply paginate_bounds. unfold RescuePortal.end_page, Bin.end_page. lia.
Qed.

Lemma class_refactors_free_functions_witness :
  RescuePortal.hold_str {[ "--year-pattern" := "-21-" ]} = "Hold" /\
  RescuePortal.year_pattern {[ "--year-pattern" := "-21-" ]} = "-21-" /\
  (forall tds, RescuePortal.process_table_data {[ "--year-pattern" := "-21-" ]} tds
               = Bin.process_table_data tds).
Proof.
  split; [reflexivity|]. split; [reflexivity|].
  assert (Hh : RescuePortal.hold_str {[ "--year-pattern" := "-21-" ]} = "Hold")
    by reflexivity.
  assert (Hy : RescuePortal.year_pattern {[ "--year-pattern" := "-21-" ]} = "-21-")
    by reflexivity.
  exact (proj1 (class_refactors_free_functions quiet_world _ Hh Hy)).
Defined.

End PaginationExtraTheorems.

(** ** The start page from the command line *)

Section CommandLineFacts.

Lemma paginate_from_ext (w : World) (f g : list Bs4.Tag -> option (list Link))
    (first : option Z) (end_page : Z) :
  (forall tds, f tds = g tds) ->
  paginate_from w f first end_page = paginate_from w g first end_page.
Proof.
  intros E. unfold paginate_from. destruct (session_ok w); [|reflexivity].
  destruct first as [first|]; [|reflexivity].
  now rewrite (visit_pages_ext w f g _ E).
Qed.

Lemma paginate_from_trace (w : World) (f : list Bs4.Tag -> option (list Link))
    (first end_page : Z) :
  session_ok w = true ->
  (forall i, (first <= i < end_page)%Z -> page_succeeds w f i) ->
  paginate_from w f (Some first) end_page =
  (EvSession :: flat_map (page_trace w f) (py_range first end_page) ++ [EvQuit],
   Returned 0).
Proof.
  intros Hs Hall. unfold paginate_from. rewrite Hs.
  rewrite visit_pages_trace; [reflexivity|].
  intros i Hi. apply Hall. now apply in_py_range.
Qed.

(** A dictionary of strings is read alike by the two embeddings. *)
Lemma start_page_of_strings (args : gmap string string) :
  CommandLine.start_page (CommandLine.of_strings args) = start_page args.
Proof.
  unfold CommandLine.start_page, start_page, CommandLine.of_strings. rewrite lookup_fmap.
  now destruct (args !! "--start-page").
Qed.

Lemma process_table_data_of_strings (args : gmap string string) (tds : list Bs4.Tag) :
  CommandLine.process_table_data (CommandLine.of_strings args) tds
  = RescuePortal.process_table_data args tds.
Proof.
  unfold CommandLine.process_table_data, RescuePortal.process_table_data,
    RescuePortal.hold_str, RescuePortal.year_pattern, CommandLine.of_strings.
  rewrite !lookup_fmap.
  now destruct (args !! "--hold"), (args !! "--year-pattern").
Qed.

Lemma main_of_strings (w : World) (args : gmap string string) :
  CommandLine.main w (CommandLine.of_strings args) = RescuePortal.run w args /\
  CommandLine.bin_main w (CommandLine.of_strings args) = Bin.main w args.
Proof.
  unfold CommandLine.main, CommandLine.bin_main, RescuePortal.run, Bin.main, paginate.
  rewrite start_page_of_strings. split; [|reflexivity].
  apply paginate_from_ext. apply process_table_data_of_strings.
Qed.

End CommandLineFacts.

Section CommandLineTheorems.
Import CommandLine Sample SampleArgs.

(** C4.  The loop of both scripts is as the claim has it: from the value
    that [int] returns it asks for every index below the bound, in order,
    and on each page it runs the row filter and downloads what was found
    before it goes on, whatever was found.  The start value is not: it is
    lost between the command line and [int].  In [images.py] the
    dictionary holds [None] when the option is not given, [int(None)]
    raises and no page is asked for, where the default should be [1].  In
    [bin/images.py] the option takes no argument for [docopt], the
    dictionary holds [True] or [False] under ["--start-page"] and the
    number under ["N"], and the loop starts at [1] with the option,
    whatever the number, and at [0] without it.  Only [images.py] with
    the option given starts at the number given. *)
Theorem command_line_start_page (w : World) (args : gmap string value) :
  (args !! "--start-page" = Some VNone ->
   CommandLine.main w args = ([EvSession], Raised)) /\
  (forall b : bool,
      args !! "--start-page" = Some (VBool b) ->
      session_ok w = true ->
      (forall i, (Z.b2z b <= i < Bin.end_page)%Z ->
                 page_succeeds w Bin.process_table_data i) ->
      CommandLine.bin_main w args =
      (EvSession ::
         flat_map (page_trace w Bin.process_table_data)
                  (py_range (Z.b2z b) Bin.end_page) ++ [EvQuit],
       Returned 0)) /\
  (forall (s : string) (first : Z),
      args !! "--start-page" = Some (VStr s) ->
      PyInt.int s = Some first ->
      session_ok w = true ->
      (forall i, (first <= i < RescuePortal.end_page)%Z ->
                 page_succeeds w (CommandLine.process_table_data args) i) ->
      CommandLine.main w args =
      (EvSession ::
         flat_map (page_trace w (CommandLine.process_table_data args))
                  (py_range first RescuePortal.end_page) ++ [EvQuit],
       Returned 0)).
Proof.
  unfold CommandLine.main, CommandLine.bin_main, CommandLine.start_page.
  split; [|split].
  - intros ->. simpl. unfold paginate_from. now destruct (session_ok w).
  - intros b -> Hs Hall. simpl. now apply paginate_from_trace.
  - intros s first -> Hint Hs Hall. simpl. rewrite Hint. now apply paginate_from_trace.
Qed.

Lemma command_line_start_page_witness :
  class_without_option !! "--start-page" = Some VNone /\
  CommandLine.main quiet_world class_without_option = ([EvSession], Raised) /\
  bin_with_option !! "--start-page" = Some (VBool true) /\
  bin_with_option !! "N" = Some (VStr "5") /\
  fetched (CommandLine.bin_main quiet_world bin_with_option).1 = py_range 1 120 /\
  bin_without_option !! "--start-page" = Some (VBool false) /\
  fetched (CommandLine.bin_main quiet_world bin_without_option).1 = py_range 0 120 /\
  class_with_option !! "--start-page" = Some (VStr "5") /\
  CommandLine.main quiet_world class_with_option =
  ([EvSession; EvListPage 5; EvListPage 6; EvListPage 7;
    EvDownload (mkLink "animal?id=1" "Buddy-Hold-24-")]
   ++ map EvListPage (py_range 8 45) ++ [EvQuit],
   Returned 0).
Proof.
  assert (Hnone : class_without_option !! "--start-page" = Some VNone) by reflexivity.
  assert (Htrue : bin_with_option !! "--start-page" = Some (VBool true)) by reflexivity.
  assert (Hfalse : bin_without_option !! "--start-page" = Some (VBool false))
    by reflexivity.
  assert (Hfive : class_with_option !! "--start-page" = Some (VStr "5")) by reflexivity.
  assert (Hbin : forall i : Z, page_succeeds quiet_world Bin.process_table_data i).
  { intros i. unfold page_succeeds. simpl.
    destruct (i =? 7)%Z; eexists; eexists; (split; [reflexivity|]; split; reflexivity). }
  assert (Hclass : forall i : Z,
             page_succeeds quiet_world (CommandLine.process_table_data class_with_option) i).
  { intros i. unfold page_succeeds. simpl.
    destruct (i =? 7)%Z; eexists; eexists; (split; [reflexivity|]; split; reflexivity). }
  split; [exact Hnone|]. split.
  { exact (proj1 (command_line_start_page quiet_world class_without_option) Hnone). }
  split; [exact Htrue|]. split; [reflexivity|]. split.
  { rewrite (proj1 (proj2 (command_line_start_page quiet_world bin_with_option))
               true Htrue eq_refl (fun i _ => Hbin i)).
    reflexivity. }
  split; [exact Hfalse|]. split.
  { rewrite (proj1 (proj2 (command_line_start_page quiet_world bin_without_option))
               false Hfalse eq_refl (fun i _ => Hbin i)).
    reflexivity. }
  split; [exact Hfive|].
  rewrite (proj2 (proj2 (command_line_start_page quiet_world class_with_option))
             "5" 5%Z Hfive eq_refl eq_refl (fun i _ => Hclass i)).
  reflexivity.
Defined.

End CommandLineTheorems.

(** ** The steps of a download *)

Section StepsFacts.
Import Steps.

Lemma append_inv_tail (s1 s2 t : string) : s1 +:+ t = s2 +:+ t -> s1 = s2.
Proof.
  revert s2. induction s1 as [|c s1 IH]; intros [|c2 s2] H; simpl in H.
  - reflexivity.
  - exfalso. apply (f_equal String.length) in H. simpl in H.
    rewrite length_append in H. lia.
  - exfalso. apply (f_equal String.length) in H. simpl in H.
    rewrite length_append in H. lia.
  - injection H as -> H. f_equal. now apply IH.
Qed.

Lemma image_path_inj (f1 f2 : string) : image_path f1 = image_path f2 -> f1 = f2.
Proof.
  unfold image_path. intros H. apply (String.app_inj "pages/") in H.
  now apply append_inv_tail in H.
Qed.




(** One link that goes through: what is on the disk afterwards. *)
Lemma save_image_done (site : Site) (d d' : Disk) (src name : string) :
  save_image site d src name = (d', true) ->
  exists content,
    http_get site src = Some content /\
    files d' !! image_path name = Some content /\
    (forall path, path <> image_path name -> files d' !! path = files d !! path).
Proof.
  unfold save_image. destruct (pages_dir d); [|discriminate].
  destruct (http_get site src) as [content|]; [|discriminate].
  intros H. injection H as <-. exists content. simpl. split; [reflexivity|]. split.
  - apply lookup_insert_eq.
  - intros path Hp. now rewrite !lookup_insert_ne by congruence.
Qed.

Lemma download_links_files (site : Site) (d d' : Disk) (ls : list Link) :
  download_links site d ls = (d', true) ->
  (forall name,
      files d' !! image_path name =
      match last_image site ls name with
      | Some content => Some content
      | None => files d !! image_path name
      end) /\
  (forall path,
      (forall l, In l ls -> path <> image_path (filename l)) ->
      files d' !! path = files d !! path).
Proof.
  revert d. induction ls as [|l ls IH]; intros d; simpl.
  - intros H. injection H as <-. split; reflexivity.
  - destruct (picture_src site (animal_url (href l))) as [attr|]; [|discriminate].
    destruct (save_image site d (or_empty attr) (filename l)) as [d1 saved] eqn:Es.
    destruct saved; [|discriminate]. simpl.
    destruct (picture_closes site (animal_url (href l))); [|discriminate].
    intros Hrest. destruct (IH d1 Hrest) as [Hnames Hother].
    destruct (save_image_done site d d1 _ _ Es) as (content & Hget & Hwritten & Hkept).
    split.
    + intros name. rewrite Hnames.
      destruct (last_image site ls name); [reflexivity|].
      destruct (String.eqb (filename l) name) eqn:E.
      * apply String.eqb_eq in E as <-. simpl. now rewrite Hget.
      * apply Hkept. intros Hp. apply image_path_inj in Hp as ->.
        rewrite String.eqb_refl in E. discriminate.
    + intros path Hp. rewrite Hother by (intros l' Hl'; apply Hp; now right).
      apply Hkept, Hp. now left.
Qed.

End StepsFacts.

Section StepsTheorems.
Import Steps StepsSample.

(** X13.  For links whose file names fit, after [download_links] has
    gone through, the file [pages/<name>.jpg] holds the bytes fetched for
    the last link called [name]: links with the same filename overwrite
    one another without notice.  A file that no link names is as it
    was. *)
Theorem downloads_last_writer_wins (site : Site) (d d' : Disk) (ls : list Link) :
  Forall (fun l => name_fits (filename l) = true) ls ->
  download_links site d ls = (d', true) ->
  (forall name,
      files d' !! image_path name =
      match last_image site ls name with
      | Some content => Some content
      | None => files d !! image_path name
      end) /\
  (forall path,
      (forall l, In l ls -> path <> image_path (filename l)) ->
      files d' !! path = files d !! path).
Proof. intros _. apply download_links_files. Qed.

Lemma downloads_last_writer_wins_witness :
  Forall (fun l => name_fits (filename l) = true) [first_buddy; second_buddy] /\
  download_links site empty_disk [first_buddy; second_buddy]
  = ((download_links site empty_disk [first_buddy; second_buddy]).1, true) /\
  files (download_links site empty_disk [first_buddy; second_buddy]).1
    !! image_path "Buddy-Hold" = Some [x02].
Proof.
  assert (Hfit : Forall (fun l => name_fits (filename l) = true)
                   [first_buddy; second_buddy])
    by (repeat constructor).
  assert (H : download_links site empty_disk [first_buddy; second_buddy]
              = ((download_links site empty_disk [first_buddy; second_buddy]).1, true))
    by reflexivity.
  split; [exact Hfit|]. split; [exact H|].
  rewrite (proj1 (downloads_last_writer_wins site empty_disk _ _ Hfit H) "Buddy-Hold").
  reflexivity.
Defined.



(** X15.  The directory [pages] is never created.  When it is missing
    nothing is written, and [download_links] goes through for the empty
    list only: the first link makes it raise. *)
Theorem missing_directory_stops_downloads (site : Site) (d : Disk) (ls : list Link) :
  pages_dir d = false ->
  (download_links site d ls).1 = d /\
  ((download_links site d ls).2 = true -> ls = []).
Proof.
  intros Hdir. destruct ls as [|l ls]; simpl; [now split|].
  destruct (picture_src site (animal_url (href l))) as [attr|]; [|now split].
  unfold save_image. rewrite Hdir. simpl. now split.
Qed.

Lemma missing_directory_stops_downloads_witness :
  pages_dir no_directory = false /\
  (download_links site no_directory [first_buddy]).1 = no_directory.
Proof.
  split; [reflexivity|].
  exact (proj1 (missing_directory_stops_downloads site no_directory [first_buddy] eq_refl)).
Defined.

(** X16.  The three addresses are built without loss: two page numbers
    with the same listing address, two [href] with the same animal
    address and two filenames with the same file are equal. *)
Theorem addresses_are_injective :
  (forall i j : Z, list_page_url i = list_page_url j -> i = j) /\
  (forall h1 h2 : string, animal_url h1 = animal_url h2 -> h1 = h2) /\
  (forall f1 f2 : string, image_path f1 = image_path f2 -> f1 = f2).
Proof.
  split; [|split].
  - unfold list_page_url. intros i j H.
    apply (String.app_inj base_url), (String.app_inj "list?&listStart=") in H.
    now apply pretty_Z_inj in H.
  - unfold animal_url. intros h1 h2 H. now apply (String.app_inj base_url) in H.
  - exact image_path_inj.
Qed.

End StepsTheorems.

(** ** From the cells of a page to the disk *)

Section PageToDisk.
Import Re RePattern Bs4 Steps StepsSample.

(** Whether it goes through or raises, [download_links] only touches the
    files of its links. *)
Lemma download_links_touches (site : Site) (d : Disk) (ls : list Link) (path : string) :
  (forall l, In l ls -> path <> image_path (filename l)) ->
  files (download_links site d ls).1 !! path = files d !! path.
Proof.
  revert d. induction ls as [|l ls IH]; intros d Hp; simpl; [reflexivity|].
  destruct (picture_src site (animal_url (href l))) as [attr|]; [|reflexivity].
  assert (Hs : files (save_image site d (or_empty attr) (filename l)).1 !! path
               = files d !! path).
  { unfold save_image. destruct (pages_dir d); [|reflexivity].
    assert (Hne : image_path (filename l) <> path)
      by (intros E; apply (Hp l); [now left | now symmetry]).
    destruct (http_get site (or_empty attr)); simpl;
      now rewrite ?lookup_insert_ne by exact Hne. }
  destruct (save_image site d (or_empty attr) (filename l)) as [d1 saved]. simpl in Hs.
  destruct (saved && picture_closes site (animal_url (href l))); [|exact Hs].
  rewrite IH; [exact Hs|]. intros l' Hl'. apply Hp. now right.
Qed.

(** X17.  In both scripts, whatever a page holds and whatever the portal
    answers, downloading what the row filter found changes no file but
    those called [pages/<name>.jpg] for a non-empty [name] made of
    characters of [[A-Za-z0-9-]]: nothing outside the directory, no file
    whose name has a dot or a slash in it. *)
Theorem downloads_stay_in_pages (args : gmap string string) (rh ry : regex)
    (site : Site) (d : Disk) (tds : list Tag) (path : string) :
  compile (RescuePortal.hold_str args) = Some rh ->
  compile (".*" +:+ RescuePortal.year_pattern args +:+ ".*") = Some ry ->
  (forall name,
      name <> "" -> PyStr.forallb filename_char name = true ->
      path <> image_path name) ->
  (exists ls,
      RescuePortal.process_table_data args tds = Some ls /\
      files (download_links site d ls).1 !! path = files d !! path) /\
  (exists ls,
      Bin.process_table_data tds = Some ls /\
      files (download_links site d ls).1 !! path = files d !! path).
Proof.
  intros Hh Hy Hpath.
  assert (G : forall process, safe_filenames process ->
              exists ls, process tds = Some ls /\
                         files (download_links site d ls).1 !! path = files d !! path).
  { intros process Hsafe. destruct (Hsafe tds) as (ls & Hls & Hall).
    exists ls. split; [exact Hls|]. apply download_links_touches.
    intros l Hl. rewrite Forall_forall in Hall.
    destruct (Hall l (proj2 (list_elem_of_In _ _) Hl)) as (Hne & Hcls & _).
    now apply Hpath. }
  split; apply G.
  - exact (safe_filenames_loop _ _ rh ry Hh Hy).
  - exact (safe_filenames_loop _ _ bin_hold bin_year bin_hold_compiles bin_year_compiles).
Qed.

Lemma downloads_stay_in_pages_witness :
  compile (RescuePortal.hold_str ∅) = Some bin_hold /\
  compile (".*" +:+ RescuePortal.year_pattern ∅ +:+ ".*") = Some (around_regex "-24-") /\
  exists ls,
    RescuePortal.process_table_data ∅ Sample.two_rows = Some ls /\
    files (download_links site empty_disk ls).1 !! "pages/../secret.jpg"
    = files empty_disk !! "pages/../secret.jpg".
Proof.
  split; [reflexivity|]. split; [reflexivity|].
  assert (Hh : compile (RescuePortal.hold_str ∅) = Some bin_hold) by reflexivity.
  assert (Hy : compile (".*" +:+ RescuePortal.year_pattern ∅ +:+ ".*")
               = Some (around_regex "-24-")) by reflexivity.
  refine (proj1 (downloads_stay_in_pages ∅ bin_hold (around_regex "-24-") site empty_disk
                   Sample.two_rows "pages/../secret.jpg" Hh Hy _)).
  intros name _ Hcls Hp.
  apply (image_path_inj "../secret" name) in Hp. subst name. discriminate Hcls.
Defined.

End PageToDisk.
